(** * Enhanced 3GPP PM parser: extraction and orchestration core

    A shallow embedding of [src/pmparser/core.py] (the [XMLProcessor] that
    projects one measurement file to flat records and the [PMParser] that
    resolves, dispatches and aggregates files), followed by the properties
    of the specification that concern it.

    Layout: [Py] holds the Python built-ins the module calls ([str], [int],
    [float], truthiness, [os.path.join]); [Re] the regular expressions behind
    [re.compile(...).match]; [ET] the ElementTree view of a parsed document;
    then the code of [core.py] itself, and finally the theorems. *)

From Stdlib Require Import ZArith String Ascii List Bool Lia.
From Stdlib Require Import DecimalString DecimalZ Permutation.
From Stdlib Require Import Floats.
From stdpp Require Import base option list strings gmap.

Set Warnings "-register-all".

Local Open Scope string_scope.
Local Open Scope Z_scope.
Local Open Scope list_scope.

(** ** Exceptions and results *)

(** The exception classes that can reach the handlers of [core.py]. Every
    one of them is an [Exception] (all are caught by [except Exception]);
    [PMError] is the module's own class, the others are raised by the
    interpreter or the libraries.  The carried string is [str(e)]. *)
Inductive py_exn : Type :=
  | PMError (msg : string)
  | AttributeError (msg : string)
  | ValueError (msg : string)
  | TypeError (msg : string)
  | ParseError (msg : string)
  | OSError (msg : string).

Definition exn_str (e : py_exn) : string :=
  match e with
  | PMError m | AttributeError m | ValueError m
  | TypeError m | ParseError m | OSError m => m
  end.

Definition is_PMError (e : py_exn) : bool :=
  match e with PMError _ => true | _ => false end.

(** A computation either returns or raises. *)
Inductive result (A : Type) : Type :=
  | Ok (a : A)
  | Raise (e : py_exn).
Arguments Ok {A} a.
Arguments Raise {A} e.

Definition bind {A B : Type} (m : result A) (k : A -> result B) : result B :=
  match m with
  | Ok a => k a
  | Raise e => Raise e
  end.

Notation "'let*' x ':=' m 'in' k" := (bind m (fun x => k))
  (at level 10, x name, m at level 100, k at level 200).

(** ** Python built-ins *)

Module Py.

(** A [str] is modelled by its sequence of code points, restricted to
    U+0000..U+00FF (one [ascii] per code point). *)

Definition code (c : ascii) : N := N_of_ascii c.

(** The white space that [int] and [float] skip around a number: TAB..CR
    and SPACE, and from the non-ASCII part of the range NEL and NBSP. *)
Definition isspace (c : ascii) : bool :=
  let n := code c in
  ((9 <=? n) && (n <=? 13) || (n =? 32) || (n =? 133) || (n =? 160))%N.

Definition isdigit (c : ascii) : bool :=
  let n := code c in ((48 <=? n) && (n <=? 57))%N.

Definition is_underscore (c : ascii) : bool := Ascii.eqb c "_".

Fixpoint lstrip (s : string) : string :=
  match s with
  | String c s' => if isspace c then lstrip s' else s
  | EmptyString => EmptyString
  end.

(** [bool(x)] for the three kinds of value the module tests. *)
Definition truthy_str (o : option string) : bool :=
  match o with
  | Some (String _ _) => true
  | _ => false
  end.

Definition truthy_int (o : option Z) : bool :=
  match o with
  | Some z => negb (z =? 0)
  | None => false
  end.

Definition truthy_list {A : Type} (l : list A) : bool :=
  match l with
  | [] => false
  | _ :: _ => true
  end.

(** [str(n)] for an [int]: decimal digits, a leading minus sign for
    negative numbers, no leading zeros. *)
Definition str (z : Z) : string := NilZero.string_of_int (Z.to_int z).

(** The digit scanner of [int(s)]: reads [digit ('_'? digit)*] and returns
    the digits (underscores removed) with the unread rest.  As in CPython,
    two underscores in a row or an underscore that is not followed by a
    digit are rejected; [prev] is the character read last. *)
Fixpoint scan_digits (prev : ascii) (s : string) : option (string * string) :=
  match s with
  | String c s' =>
      if isdigit c then
        match scan_digits c s' with
        | Some (ds, rest) => Some (String c ds, rest)
        | None => None
        end
      else if is_underscore c then
        if is_underscore prev then None else scan_digits c s'
      else if is_underscore prev then None else Some (EmptyString, s)
  | EmptyString =>
      if is_underscore prev then None else Some (EmptyString, EmptyString)
  end.

Definition startswith (c : ascii) (s : string) : bool :=
  match s with
  | String c' _ => Ascii.eqb c' c
  | EmptyString => false
  end.

Definition split_sign (s : string) : bool * string :=
  match s with
  | String c t =>
      if Ascii.eqb c "+" then (false, t)
      else if Ascii.eqb c "-" then (true, t)
      else (false, s)
  | EmptyString => (false, s)
  end.

Definition apply_sign (neg : bool) (z : Z) : Z := if neg then - z else z.

(** [int(s)] in base 10 on a [str]: optional surrounding white space, an
    optional sign, then at least one digit; [None] stands for the
    [ValueError]. *)
Definition int_of_str (s : string) : option Z :=
  let '(neg, body) := split_sign (lstrip s) in
  if startswith "_" body then None
  else
    match scan_digits "000" body with
    | Some (String d ds, rest) =>
        match lstrip rest with
        | EmptyString =>
            match NilEmpty.uint_of_string (String d ds) with
            | Some u => Some (apply_sign neg (Z.of_uint u))
            | None => None
            end
        | String _ _ => None
        end
    | _ => None
    end.

(** The text of [repr(s)] is only used inside interpreter messages; the
    escaping of quotes and control characters is not reproduced. *)
Definition repr (s : string) : string := "'" +:+ s +:+ "'".

(** [int(x)] where [x] is the result of [Element.get]: a [str] or [None]. *)
Definition int (x : option string) : result Z :=
  match x with
  | None =>
      Raise (TypeError
        "int() argument must be a string, a bytes-like object or a real number, not 'NoneType'")
  | Some s =>
      match int_of_str s with
      | Some z => Ok z
      | None =>
          Raise (ValueError ("invalid literal for int() with base 10: " +:+ repr s))
      end
  end.

(** *** [float(s)] *)

(** IEEE 754 binary64, as [spec_float] with 53 bits of precision. *)
Definition prec : Z := 53.
Definition emax : Z := 1024.

(** The correctly rounded (nearest, ties to even) binary64 value of
    [m * 10^e] for a natural number [m], with the sign [neg]. *)
Definition float_of_decimal (neg : bool) (m e : Z) : spec_float :=
  match m with
  | Zpos pm =>
      if 0 <=? e then
        match m * 10 ^ e with
        | Zpos p => binary_round prec emax neg p 0
        | _ => S754_zero neg
        end
      else
        let '(q, e', l) := SFdiv_core_binary prec emax m 0 (10 ^ (- e)) 0 in
        binary_round_aux prec emax neg q e' l
  | _ => S754_zero neg
  end.

(** The check of underscores made before the number is read: an
    underscore must stand between two digits; all of them are removed. *)
Fixpoint strip_underscores (prev : ascii) (s : string) : option string :=
  match s with
  | EmptyString => if is_underscore prev then None else Some EmptyString
  | String c s' =>
      if is_underscore c then
        if isdigit prev then strip_underscores c s' else None
      else if is_underscore prev && negb (isdigit c) then None
      else option_map (String c) (strip_underscores c s')
  end.

Definition has_underscore (s : string) : bool :=
  existsb is_underscore (list_ascii_of_string s).

Definition rstrip (s : string) : string :=
  string_of_list_ascii
    (rev (list_ascii_of_string
            (lstrip (string_of_list_ascii (rev (list_ascii_of_string s)))))).

Fixpoint take_digits (s : string) : string * string :=
  match s with
  | String c s' =>
      if isdigit c then
        let '(ds, rest) := take_digits s' in (String c ds, rest)
      else (EmptyString, s)
  | EmptyString => (EmptyString, EmptyString)
  end.

Definition digits_to_Z (ds : string) : Z :=
  match NilEmpty.uint_of_string ds with
  | Some u => Z.of_uint u
  | None => 0
  end.

Definition lower (c : ascii) : ascii :=
  let n := code c in
  if ((65 <=? n) && (n <=? 90))%N then ascii_of_N (n + 32) else c.

Fixpoint lower_str (s : string) : string :=
  match s with
  | String c s' => String (lower c) (lower_str s')
  | EmptyString => EmptyString
  end.

(** The exponent part: [e] or [E], an optional sign and at least one
    digit.  When no digit follows, nothing is read. *)
Definition read_exponent (s : string) : Z * string :=
  match s with
  | String c t =>
      if Ascii.eqb (lower c) "e" then
        let '(eneg, t') := split_sign t in
        match take_digits t' with
        | (String d ds, rest) => (apply_sign eneg (digits_to_Z (String d ds)), rest)
        | _ => (0, s)
        end
      else (0, s)
  | EmptyString => (0, s)
  end.

(** A number after the sign: digits with an optional point, at least one
    digit in all, an optional exponent; the whole string must be read.
    Failing that, the spellings of infinity and NaN in any case. *)
Definition read_number (neg : bool) (s : string) : option spec_float :=
  let '(ip, r1) := take_digits s in
  let '(fp, r2) :=
    match r1 with
    | String c t => if Ascii.eqb c "." then take_digits t else (EmptyString, r1)
    | EmptyString => (EmptyString, r1)
    end in
  match ip +:+ fp with
  | String _ _ =>
      match read_exponent r2 with
      | (ex, EmptyString) =>
          Some (float_of_decimal neg (digits_to_Z (ip +:+ fp))
                  (ex - Z.of_nat (String.length fp)))
      | _ => None
      end
  | EmptyString =>
      let w := lower_str s in
      if String.eqb w "inf" || String.eqb w "infinity" then Some (S754_infinity neg)
      else if String.eqb w "nan" then Some S754_nan
      else None
  end.

Definition float_of_str (s : string) : option spec_float :=
  let body :=
    if has_underscore s then strip_underscores "000" s else Some s in
  match body with
  | Some b =>
      let '(neg, t) := split_sign (rstrip (lstrip b)) in
      read_number neg t
  | None => None
  end.

(** [float(x)] where [x] is [Element.text]: a [str] or [None]. *)
Definition float (x : option string) : result spec_float :=
  match x with
  | None =>
      Raise (TypeError "float() argument must be a string or a real number, not 'NoneType'")
  | Some s =>
      match float_of_str s with
      | Some f => Ok f
      | None => Raise (ValueError ("could not convert string to float: " +:+ repr s))
      end
  end.

(** *** [os.path] *)

Fixpoint endswith_slash (s : string) : bool :=
  match s with
  | String c EmptyString => Ascii.eqb c "/"
  | String _ t => endswith_slash t
  | EmptyString => false
  end.

(** [os.path.join(a, b)] on POSIX. *)
Definition path_join (a b : string) : string :=
  if startswith "/" b then b
  else
    match a with
    | EmptyString => b
    | _ => if endswith_slash a then a +:+ b else a +:+ "/" +:+ b
    end.

End Py.

(** ** Regular expressions: [re.compile(pattern).match(name)] *)

Module Re.

(** Compiled patterns, for the constructs a file-name pattern is written
    with: literals, [.], [^], [$], concatenation, [|] and [*] (with [+]
    and [?] derived). *)
Inductive regex : Type :=
  | Eps
  | Chr (c : ascii)
  | Dot
  | Bos
  | Eos
  | Cat (r1 r2 : regex)
  | Alt (r1 r2 : regex)
  | Star (r : regex).

Definition Plus (r : regex) : regex := Cat r (Star r).
Definition Opt (r : regex) : regex := Alt r Eps.

Fixpoint lit (s : string) : regex :=
  match s with
  | EmptyString => Eps
  | String c EmptyString => Chr c
  | String c t => Cat (Chr c) (lit t)
  end.

(** A position in the subject: whether it is the start of the subject,
    and what is left to read. *)
Definition position : Type := bool * string.

Definition newline : ascii := "010".

Definition at_end (s : string) : bool :=
  match s with
  | EmptyString => true
  | String c EmptyString => Ascii.eqb c newline
  | _ => false
  end.

(** Repetition: zero or more rounds of [step], each of which must read
    something. *)
Fixpoint star_ends (step : position -> list position) (fuel : nat)
    (p : position) : list position :=
  p :: match fuel with
       | O => []
       | S fuel' =>
           flat_map (star_ends step fuel')
             (List.filter
                (fun q => (String.length (snd q) <? String.length (snd p))%nat)
                (step p))
       end.

(** All the positions at which a match of [r] that starts at [p] can
    end.  The backtracking matcher of Python finds a match exactly when
    there is one, so matching succeeds if and only if this list is not
    empty. [.] does not match a newline, [^] matches at the start of the
    subject, [$] at its end and before a newline that ends it. *)
Fixpoint ends (r : regex) (p : position) : list position :=
  match r with
  | Eps => [p]
  | Chr c =>
      match snd p with
      | String c' t => if Ascii.eqb c c' then [(false, t)] else []
      | EmptyString => []
      end
  | Dot =>
      match snd p with
      | String c' t => if Ascii.eqb c' newline then [] else [(false, t)]
      | EmptyString => []
      end
  | Bos => if fst p then [p] else []
  | Eos => if at_end (snd p) then [p] else []
  | Cat r1 r2 => flat_map (ends r2) (ends r1 p)
  | Alt r1 r2 => ends r1 p ++ ends r2 p
  | Star r1 => star_ends (ends r1) (String.length (snd p)) p
  end.

(** [pattern.match(s)] is not [None]: some match starts at the beginning
    of [s] (and may end anywhere). *)
Definition matches (r : regex) (s : string) : bool :=
  match ends r (true, s) with
  | [] => false
  | _ :: _ => true
  end.

(** [pattern.fullmatch(s)] is not [None]: some match covers all of [s]. *)
Definition fullmatches (r : regex) (s : string) : bool :=
  existsb (fun q => match snd q with EmptyString => true | _ => false end)
    (ends r (true, s)).

(** [re.compile(pattern)] for patterns written with those constructs:
    ordinary characters, [.], [^], [$], a backslash before a punctuation
    character, groups in plain parentheses, [|], and one of [*], [+], [?]
    after an item.  [None] stands for every other pattern, those that Python
    rejects as well as those that use constructs outside this fragment
    (classes, counted repeats, backslash sequences of letters and digits,
    extension groups, a second quantifier after a first). *)

Definition is_quantifier (c : ascii) : bool :=
  Ascii.eqb c "*" || Ascii.eqb c "+" || Ascii.eqb c "?".

Definition is_alnum (c : ascii) : bool :=
  let n := N_of_ascii c in
  ((48 <=? n) && (n <=? 57) || (65 <=? n) && (n <=? 90)
   || (97 <=? n) && (n <=? 122))%N.

Definition is_bracket (c : ascii) : bool :=
  Ascii.eqb c "[" || Ascii.eqb c "]" || Ascii.eqb c "{" || Ascii.eqb c "}".

Definition cat (r1 r2 : regex) : regex :=
  match r1, r2 with
  | Eps, _ => r2
  | _, Eps => r1
  | _, _ => Cat r1 r2
  end.

Definition quantify (q : ascii) (r : regex) : regex :=
  if Ascii.eqb q "*" then Star r
  else if Ascii.eqb q "+" then Plus r
  else Opt r.

Definition is_anchor (r : regex) : bool :=
  match r with
  | Bos | Eos => true
  | _ => false
  end.

Fixpoint parse_alt (fuel : nat) (s : string) : option (regex * string) :=
  match fuel with
  | O => None
  | S fuel' =>
      match parse_seq fuel' s with
      | Some (r1, String c rest) =>
          if Ascii.eqb c "|" then
            match parse_alt fuel' rest with
            | Some (r2, rest') => Some (Alt r1 r2, rest')
            | None => None
            end
          else Some (r1, String c rest)
      | other => other
      end
  end
with parse_seq (fuel : nat) (s : string) : option (regex * string) :=
  match fuel with
  | O => None
  | S fuel' =>
      match s with
      | EmptyString => Some (Eps, s)
      | String c _ =>
          if Ascii.eqb c "|" || Ascii.eqb c ")" then Some (Eps, s)
          else
            match parse_item fuel' s with
            | Some (r1, rest) =>
                match parse_seq fuel' rest with
                | Some (r2, rest') => Some (cat r1 r2, rest')
                | None => None
                end
            | None => None
            end
      end
  end
with parse_item (fuel : nat) (s : string) : option (regex * string) :=
  match fuel with
  | O => None
  | S fuel' =>
      match parse_atom fuel' s with
      | Some (r, String q rest) =>
          if is_quantifier q then
            if is_anchor r then None
            else
              match rest with
              | String q' _ =>
                  if is_quantifier q' then None else Some (quantify q r, rest)
              | EmptyString => Some (quantify q r, rest)
              end
          else Some (r, String q rest)
      | other => other
      end
  end
with parse_atom (fuel : nat) (s : string) : option (regex * string) :=
  match fuel with
  | O => None
  | S fuel' =>
      match s with
      | EmptyString => None
      | String c rest =>
          if Ascii.eqb c "(" then
            match rest with
            | String c' _ =>
                if Ascii.eqb c' "?" then None
                else
                  match parse_alt fuel' rest with
                  | Some (r, String c'' rest') =>
                      if Ascii.eqb c'' ")" then Some (cat r Eps, rest') else None
                  | _ => None
                  end
            | EmptyString => None
            end
          else if Ascii.eqb c "\" then
            match rest with
            | String c' rest' =>
                if is_alnum c' then None else Some (Chr c', rest')
            | EmptyString => None
            end
          else if Ascii.eqb c "." then Some (Dot, rest)
          else if Ascii.eqb c "^" then Some (Bos, rest)
          else if Ascii.eqb c "$" then Some (Eos, rest)
          else if is_quantifier c || is_bracket c || Ascii.eqb c ")" then None
          else Some (Chr c, rest)
      end
  end.

Definition compile (pattern : string) : option regex :=
  match parse_alt (4 * String.length pattern + 4) pattern with
  | Some (r, EmptyString) => Some r
  | _ => None
  end.


End Re.

(** ** ElementTree *)

Module ET.

(** An element: its qualified tag, its attributes, the text before its
    first child ([None] when there is none) and its children. *)
Inductive Element : Type :=
  | mkElement (tag : string) (attrib : gmap string string)
      (text : option string) (children : list Element).

Definition tag (e : Element) : string :=
  match e with mkElement t _ _ _ => t end.
Definition attrib (e : Element) : gmap string string :=
  match e with mkElement _ a _ _ => a end.
Definition text (e : Element) : option string :=
  match e with mkElement _ _ x _ => x end.
Definition children (e : Element) : list Element :=
  match e with mkElement _ _ _ c => c end.

(** [e.get(key)]: the attribute or [None]. *)
Definition get (e : Element) (key : string) : option string :=
  attrib e !! key.

(** [e.iter()]: the element and all its descendants in document order. *)
Fixpoint iter (e : Element) : list Element :=
  match e with
  | mkElement _ _ _ cs => e :: flat_map iter cs
  end.

(** Of the path language, the form the module uses: [.//qname], every
    descendant with that qualified tag.  [descendant_tag] reads the tag of
    such a path. *)
Definition descendant_tag (path : string) : option string :=
  match path with
  | String c1 (String c2 (String c3 qname)) =>
      if Ascii.eqb c1 "." && Ascii.eqb c2 "/" && Ascii.eqb c3 "/" then Some qname
      else None
  | _ => None
  end.

(** [e.findall(path)]: the matches in document order. *)
Definition findall (e : Element) (path : string) : list Element :=
  match descendant_tag path with
  | Some qname =>
      List.filter (fun x => String.eqb (tag x) qname) (flat_map iter (children e))
  | None => []
  end.

(** [e.find(path)]: the first match or [None]. *)
Definition find (e : Element) (path : string) : option Element :=
  head (findall e path).

End ET.

(** ** [core.py] *)

Definition NAMESPACE : string :=
  "{http://www.3gpp.org/ftp/specs/archive/32_series/32.435#measCollec}".

(** [DEFAULT_FILE_PATTERN = r'A.*\.xml'], compiled. *)
Definition DEFAULT_FILE_PATTERN_source : string := "A.*\.xml".

Definition DEFAULT_FILE_PATTERN : Re.regex :=
  Re.Cat (Re.Chr "A") (Re.Cat (Re.Star Re.Dot) (Re.lit ".xml")).

(** [ParserConfig] after [__post_init__]; [file_pattern] is held in the
    form [re.compile] gives it. *)
Record ParserConfig : Type := mkParserConfig {
  single_file : option string;
  directory : option string;
  file_pattern : Re.regex;
  measInfoId : option string;
  p_value : option Z;
  objLdn_list : list string;
  output_type : string;
  num_workers : Z
}.

(** The constructor with its defaults and [__post_init__]; [cpu_count] is
    the number of processing units of the machine. *)
Definition ParserConfig_init (cpu_count : Z)
    (single_file directory : option string) (file_pattern : option Re.regex)
    (measInfoId : option string) (p_value : option Z)
    (objLdn_list : option (list string)) (output_type : option string)
    (num_workers : option Z) : ParserConfig :=
  {| single_file := single_file;
     directory := directory;
     file_pattern := default DEFAULT_FILE_PATTERN file_pattern;
     measInfoId := measInfoId;
     p_value := p_value;
     objLdn_list := default [] objLdn_list;
     output_type := default "excel" output_type;
     num_workers := default cpu_count num_workers |}.

(** The value of a reading: a float, or the element text as it stands. *)
Inductive py_value : Type :=
  | VFloat (f : spec_float)
  | VText (t : option string).

(** One entry of the result list (a dict with these six keys). *)
Module Measurement.
Record t : Type := mk {
  endTime : option string;
  measInfoId : option string;
  measObjLdn : option string;
  p : Z;
  value : py_value;
  measType : option string
}.
End Measurement.

(** What the module asks of the operating system and of the XML parser:
    [os.path.exists], [os.listdir] and [ET.parse(path).getroot()]. *)
Record FileSystem : Type := mkFileSystem {
  path_exists : string -> bool;
  listdir : string -> result (list string);
  parse : string -> result ET.Element
}.

(** *** [XMLProcessor] *)

Record XMLProcessor : Type := mkXMLProcessor { namespace : string }.

Definition double_quote : string := String "034" EmptyString.

Fixpoint join (sep : string) (parts : list string) : string :=
  match parts with
  | [] => EmptyString
  | [x] => x
  | x :: rest => x +:+ sep +:+ join sep rest
  end.

(** [create_xpath_string(element, **kwargs)]: the path
    [.//{namespace}element], followed by the attribute tests of the keyword
    arguments that are not [None].  Every call of the module passes no
    keyword argument. *)
Definition create_xpath_string (self : XMLProcessor) (element : string)
    (kwargs : list (string * option string)) : string :=
  let base := ".//" +:+ namespace self +:+ element in
  let attrs :=
    flat_map (fun '(key, value) =>
                match value with
                | Some v => ["@" +:+ key +:+ "=" +:+ double_quote +:+ v +:+ double_quote]
                | None => []
                end) kwargs in
  match attrs with
  | [] => base
  | _ :: _ => base +:+ "[" +:+ join " and " attrs +:+ "]"
  end.

(** The three [continue] tests of [process_file]. *)

(** [config.measInfoId and measInfo.get('measInfoId') != config.measInfoId] *)
Definition skip_measInfo (config : ParserConfig) (measInfo : ET.Element) : bool :=
  Py.truthy_str (measInfoId config)
  && negb (bool_decide (ET.get measInfo "measInfoId" = measInfoId config)).

(** [config.objLdn_list and obj_ldn not in config.objLdn_list] *)
Definition skip_measValue (config : ParserConfig) (obj_ldn : option string) : bool :=
  Py.truthy_list (objLdn_list config)
  && negb (match obj_ldn with
           | Some s => existsb (String.eqb s) (objLdn_list config)
           | None => false
           end).

(** [config.p_value and p != str(config.p_value)] *)
Definition skip_r (config : ParserConfig) (p : option string) : bool :=
  Py.truthy_int (p_value config)
  && negb (bool_decide (p = Py.str <$> p_value config)).

(** The [try: value = float(r.text) except (ValueError, TypeError): value =
    r.text] block. *)
Definition read_value (r : ET.Element) : result py_value :=
  match Py.float (ET.text r) with
  | Ok f => Ok (VFloat f)
  | Raise (ValueError _) | Raise (TypeError _) => Ok (VText (ET.text r))
  | Raise e => Raise e
  end.

(** The dict comprehension [{mt.get('p'): mt.text for mt in ...}]: a later
    declaration replaces an earlier one under the same key. *)
Definition build_meas_types (mts : list ET.Element)
    : gmap (option string) (option string) :=
  fold_left (fun d mt => <[ET.get mt "p" := ET.text mt]> d) mts ∅.

(** [meas_types.get(p)] *)
Definition dict_get (d : gmap (option string) (option string))
    (k : option string) : option string :=
  default None (d !! k).

(** The loop over the [r] elements of one [measValue]; [results] is the
    list the loops append to. *)
Fixpoint for_r (config : ParserConfig) (endTime measInfoId_ obj_ldn : option string)
    (meas_types : gmap (option string) (option string))
    (rs : list ET.Element) (results : list Measurement.t) : result (list Measurement.t) :=
  match rs with
  | [] => Ok results
  | r :: rs' =>
      let p := ET.get r "p" in
      if skip_r config p then
        for_r config endTime measInfoId_ obj_ldn meas_types rs' results
      else
        let* value := read_value r in
        let* n := Py.int p in
        for_r config endTime measInfoId_ obj_ldn meas_types rs'
          (results ++ [ {| Measurement.endTime := endTime;
                           Measurement.measInfoId := measInfoId_;
                           Measurement.measObjLdn := obj_ldn;
                           Measurement.p := n;
                           Measurement.value := value;
                           Measurement.measType := dict_get meas_types p |} ])
  end.

(** The loop over the [measValue] elements of one [measInfo]. *)
Fixpoint for_measValue (self : XMLProcessor) (config : ParserConfig)
    (endTime measInfoId_ : option string)
    (meas_types : gmap (option string) (option string))
    (mvs : list ET.Element) (results : list Measurement.t) : result (list Measurement.t) :=
  match mvs with
  | [] => Ok results
  | measValue :: mvs' =>
      let obj_ldn := ET.get measValue "measObjLdn" in
      if skip_measValue config obj_ldn then
        for_measValue self config endTime measInfoId_ meas_types mvs' results
      else
        let* results' :=
          for_r config endTime measInfoId_ obj_ldn meas_types
            (ET.findall measValue (create_xpath_string self "r" [])) results in
        for_measValue self config endTime measInfoId_ meas_types mvs' results'
  end.

(** [granPeriod.get('endTime')], where [granPeriod] may be [None]. *)
Definition get_endTime (granPeriod : option ET.Element) : result (option string) :=
  match granPeriod with
  | Some g => Ok (ET.get g "endTime")
  | None => Raise (AttributeError "'NoneType' object has no attribute 'get'")
  end.

(** The loop over the [measInfo] elements of the document. *)
Fixpoint for_measInfo (self : XMLProcessor) (config : ParserConfig)
    (mis : list ET.Element) (results : list Measurement.t) : result (list Measurement.t) :=
  match mis with
  | [] => Ok results
  | measInfo :: mis' =>
      if skip_measInfo config measInfo then
        for_measInfo self config mis' results
      else
        let granPeriod := ET.find measInfo (create_xpath_string self "granPeriod" []) in
        let* endTime := get_endTime granPeriod in
        let meas_types :=
          build_meas_types (ET.findall measInfo (create_xpath_string self "measType" [])) in
        let* results' :=
          for_measValue self config endTime (ET.get measInfo "measInfoId") meas_types
            (ET.findall measInfo (create_xpath_string self "measValue" [])) results in
        for_measInfo self config mis' results'
  end.

(** The body of the [try] of [process_file]. *)
Definition process_file_body (self : XMLProcessor) (fs : FileSystem)
    (file_path : string) (config : ParserConfig) : result (list Measurement.t) :=
  let* root := parse fs file_path in
  for_measInfo self config (ET.findall root (create_xpath_string self "measInfo" [])) [].

(** [process_file]: every exception of the body is replaced by a [PMError]
    that names the file.  (The line passed to [logger.error] is the same
    text with the prefix [Error processing file ...]; it is written by the
    worker and is not part of the result.) *)
Definition process_file (self : XMLProcessor) (fs : FileSystem)
    (file_path : string) (config : ParserConfig) : result (list Measurement.t) :=
  match process_file_body self fs file_path config with
  | Ok results => Ok results
  | Raise e =>
      Raise (PMError ("Failed to process " +:+ file_path +:+ ": " +:+ exn_str e))
  end.

(** *** [PMParser] *)

(** An output handler is known to the core only as the object whose
    [write] it calls; it is identified here by the name of its target. *)
Record PMParser : Type := mkPMParser {
  config : ParserConfig;
  xml_processor : XMLProcessor;
  output_handler : option string
}.

(** [PMParser(config)] *)
Definition PMParser_init (config : ParserConfig) : PMParser :=
  {| config := config;
     xml_processor := {| namespace := NAMESPACE |};
     output_handler := None |}.

Definition set_output_handler (self : PMParser) (handler : string) : PMParser :=
  {| config := config self;
     xml_processor := xml_processor self;
     output_handler := Some handler |}.

(** [_get_files_to_process] *)
Definition _get_files_to_process (self : PMParser) (fs : FileSystem)
    : result (list string) :=
  match single_file (config self) with
  | Some (String c f) =>
      let single := String c f in
      if negb (path_exists fs single) then
        Raise (PMError ("File not found: " +:+ single))
      else Ok [single]
  | _ =>
      match directory (config self) with
      | Some (String c d) =>
          let dir := String c d in
          if negb (path_exists fs dir) then
            Raise (PMError ("Directory not found: " +:+ dir))
          else
            let* names := listdir fs dir in
            Ok (map (Py.path_join dir)
                  (List.filter (Re.matches (file_pattern (config self))) names))
      | _ => Raise (PMError "No input file or directory specified")
      end
  end.

(** What a run leaves behind, oldest first: the lines logged by the
    orchestrator, the files handed to the executor and the calls made to
    the output handler. *)
Record World : Type := mkWorld {
  w_log : list string;
  w_submitted : list string;
  w_sink : list (string * list Measurement.t)
}.

Definition log (line : string) (w : World) : World :=
  {| w_log := w_log w ++ [line];
     w_submitted := w_submitted w;
     w_sink := w_sink w |}.

Definition submit (files : list string) (w : World) : World :=
  {| w_log := w_log w;
     w_submitted := w_submitted w ++ files;
     w_sink := w_sink w |}.

Definition write (handler : string) (data : list Measurement.t) (w : World) : World :=
  {| w_log := w_log w;
     w_submitted := w_submitted w;
     w_sink := w_sink w ++ [(handler, data)] |}.

(** The collection loop: [for future in as_completed(futures)], with
    [results.extend] on success and a logged line on any exception. *)
Fixpoint collect (completed : list (result (list Measurement.t)))
    (results : list Measurement.t) (w : World) : list Measurement.t * World :=
  match completed with
  | [] => (results, w)
  | future :: rest =>
      match future with
      | Ok result_ => collect rest (results ++ result_) w
      | Raise e => collect rest results (log ("Error processing file: " +:+ exn_str e) w)
      end
  end.

(** [process_files].  Two things are decided outside this module and are
    parameters: [await_future file config], what awaiting the future of
    [run_in_executor(executor, process_file, file, config)] gives, and
    [as_completed], the order in which the futures complete. *)
Definition process_files (self : PMParser) (fs : FileSystem)
    (await_future : string -> ParserConfig -> result (list Measurement.t))
    (as_completed : list (result (list Measurement.t)) -> list (result (list Measurement.t)))
    (w : World) : result (list Measurement.t) * World :=
  match _get_files_to_process self fs with
  | Raise e => (Raise e, w)
  | Ok [] => (Raise (PMError "No files found to process"), w)
  | Ok files =>
      let w1 :=
        log ("Processing " +:+ Py.str (Z.of_nat (length files)) +:+ " files with "
             +:+ Py.str (num_workers (config self)) +:+ " workers") w in
      if num_workers (config self) <=? 0 then
        (Raise (ValueError "max_workers must be greater than 0"), w1)
      else
        let futures := map (fun file => await_future file (config self)) files in
        let '(results, w2) := collect (as_completed futures) [] (submit files w1) in
        let w3 :=
          match output_handler self with
          | Some handler => write handler results w2
          | None => w2
          end in
        (Ok results, w3)
  end.

(** The future of a file when the worker runs [process_file] on it to
    completion. *)
Definition run_process_file (self : PMParser) (fs : FileSystem)
    (file : string) (config : ParserConfig) : result (list Measurement.t) :=
  process_file (xml_processor self) fs file config.


(** ** Views of an extraction *)

(** Sequencing over a list: the results in order, or the first exception. *)
Fixpoint mapM {A B : Type} (f : A -> result B) (l : list A) : result (list B) :=
  match l with
  | [] => Ok []
  | a :: l' =>
      let* b := f a in
      let* bs := mapM f l' in
      Ok (b :: bs)
  end.

Fixpoint concat_mapM {A B : Type} (f : A -> result (list B)) (l : list A)
    : result (list B) :=
  match l with
  | [] => Ok []
  | a :: l' =>
      let* bs := f a in
      let* rest := concat_mapM f l' in
      Ok (bs ++ rest)
  end.

(** The elements that the three loops do not skip. *)
Definition blocks (self : XMLProcessor) (config : ParserConfig)
    (root : ET.Element) : list ET.Element :=
  List.filter (fun mi => negb (skip_measInfo config mi))
    (ET.findall root (create_xpath_string self "measInfo" [])).

Definition groups (self : XMLProcessor) (config : ParserConfig)
    (measInfo : ET.Element) : list ET.Element :=
  List.filter (fun mv => negb (skip_measValue config (ET.get mv "measObjLdn")))
    (ET.findall measInfo (create_xpath_string self "measValue" [])).

Definition readings (self : XMLProcessor) (config : ParserConfig)
    (measValue : ET.Element) : list ET.Element :=
  List.filter (fun r => negb (skip_r config (ET.get r "p")))
    (ET.findall measValue (create_xpath_string self "r" [])).

(** A reading together with the value group and the block it is read in. *)
Definition reading : Type := ET.Element * ET.Element * ET.Element.

(** The readings that reach [results.append], in the order of the loops. *)
Definition selected (self : XMLProcessor) (config : ParserConfig)
    (root : ET.Element) : list reading :=
  flat_map (fun mi =>
    flat_map (fun mv => map (fun r => (mi, mv, r)) (readings self config mv))
      (groups self config mi))
    (blocks self config root).

(** The dict appended for the reading [r] once [endTime], the block id, the
    object name and the table of the block are known. *)
Definition row_r (endTime measInfoId_ obj_ldn : option string)
    (meas_types : gmap (option string) (option string)) (r : ET.Element)
    : result Measurement.t :=
  let* value := read_value r in
  let* n := Py.int (ET.get r "p") in
  Ok {| Measurement.endTime := endTime;
        Measurement.measInfoId := measInfoId_;
        Measurement.measObjLdn := obj_ldn;
        Measurement.p := n;
        Measurement.value := value;
        Measurement.measType := dict_get meas_types (ET.get r "p") |}.

(** The same from the three elements alone. *)
Definition row_of (self : XMLProcessor) (t : reading) : result Measurement.t :=
  let '(mi, mv, r) := t in
  let* endTime := get_endTime (ET.find mi (create_xpath_string self "granPeriod" [])) in
  row_r endTime (ET.get mi "measInfoId") (ET.get mv "measObjLdn")
    (build_meas_types (ET.findall mi (create_xpath_string self "measType" []))) r.

(** What one value group and one block contribute. *)
Definition group_rows (self : XMLProcessor) (config : ParserConfig)
    (endTime measInfoId_ : option string)
    (meas_types : gmap (option string) (option string)) (mv : ET.Element)
    : result (list Measurement.t) :=
  mapM (row_r endTime measInfoId_ (ET.get mv "measObjLdn") meas_types)
    (readings self config mv).

Definition block_rows (self : XMLProcessor) (config : ParserConfig)
    (mi : ET.Element) : result (list Measurement.t) :=
  let* endTime := get_endTime (ET.find mi (create_xpath_string self "granPeriod" [])) in
  concat_mapM
    (group_rows self config endTime (ET.get mi "measInfoId")
       (build_meas_types (ET.findall mi (create_xpath_string self "measType" []))))
    (groups self config mi).

(** The value kept for an element text. *)
Definition value_of_text (t : option string) : py_value :=
  match t with
  | Some s =>
      match Py.float_of_str s with
      | Some f => VFloat f
      | None => VText (Some s)
      end
  | None => VText None
  end.

(** What a future adds to the aggregate, and to the log. *)
Definition rows_of_future (future : result (list Measurement.t)) : list Measurement.t :=
  match future with
  | Ok rows => rows
  | Raise _ => []
  end.

Definition log_of_future (future : result (list Measurement.t)) : list string :=
  match future with
  | Ok _ => []
  | Raise e => ["Error processing file: " +:+ exn_str e]
  end.

(** The declaration that a key resolves to: the last [measType] of the
    list that carries it. *)
Definition last_decl (k : option string) (mts : list ET.Element) : option ET.Element :=
  List.find (fun mt => bool_decide (ET.get mt "p" = k)) (rev mts).

(** A document with the structure the extraction relies on: every block
    has a [granPeriod] and every reading an index that [int] accepts. *)
Definition int_ok (r : ET.Element) : bool :=
  match Py.int (ET.get r "p") with
  | Ok _ => true
  | Raise _ => false
  end.

Definition well_formed (self : XMLProcessor) (root : ET.Element) : bool :=
  forallb (fun mi =>
    match ET.find mi (create_xpath_string self "granPeriod" []) with
    | Some _ => true
    | None => false
    end
    && forallb (fun mv =>
         forallb int_ok (ET.findall mv (create_xpath_string self "r" [])))
         (ET.findall mi (create_xpath_string self "measValue" [])))
    (ET.findall root (create_xpath_string self "measInfo" [])).

(** A configuration restricted to one of its three filters. *)
Definition with_filters (config : ParserConfig) (id : option string)
    (pv : option Z) (ldn : list string) : ParserConfig :=
  {| single_file := single_file config;
     directory := directory config;
     file_pattern := file_pattern config;
     measInfoId := id;
     p_value := pv;
     objLdn_list := ldn;
     output_type := output_type config;
     num_workers := num_workers config |}.


(** ** Sample documents *)

Definition sample_processor : XMLProcessor := {| namespace := NAMESPACE |}.

Definition elem (name : string) (attrs : list (string * string))
    (text : option string) (children : list ET.Element) : ET.Element :=
  ET.mkElement (NAMESPACE +:+ name) (list_to_map attrs) text children.

Definition sample_file (blocks : list ET.Element) : ET.Element :=
  elem "measCollecFile" [] None [elem "measData" [] None blocks].

(** The scenario of the specification: block [A], one declared counter,
    one value group with one reading. *)
Definition block_A (readings : list ET.Element) : ET.Element :=
  elem "measInfo" [("measInfoId", "A")] None
    [ elem "granPeriod" [("endTime", "2024-01-01T00:00:00")] None [];
      elem "measType" [("p", "10")] (Some "attTCHSeizures") [];
      elem "measValue" [("measObjLdn", "Cell1")] None readings ].

Definition reading_10 : ET.Element := elem "r" [("p", "10")] (Some "42") [].
Definition reading_010 : ET.Element := elem "r" [("p", "010")] (Some "42") [].
Definition reading_pi : ET.Element := elem "r" [("p", "10")] (Some "3.14") [].
Definition reading_text : ET.Element := elem "r" [("p", "11")] (Some "n/a") [].
Definition reading_bad : ET.Element := elem "r" [("p", "ten")] (Some "42") [].

(** A block that has no [granPeriod]. *)
Definition block_B : ET.Element :=
  elem "measInfo" [("measInfoId", "B")] None
    [ elem "measType" [("p", "10")] (Some "succTCHSeizures") [];
      elem "measValue" [("measObjLdn", "Cell2")] None [reading_10] ].

(** Two blocks that declare the same indices under different names; the
    first declares index 10 twice and index 11 not at all. *)
Definition block_dup : ET.Element :=
  elem "measInfo" [("measInfoId", "A")] None
    [ elem "granPeriod" [("endTime", "2024-01-01T00:00:00")] None [];
      elem "measType" [("p", "10")] (Some "oldName") [];
      elem "measType" [("p", "10")] (Some "attTCHSeizures") [];
      elem "measValue" [("measObjLdn", "Cell1")] None [reading_10; reading_text] ].

Definition block_C : ET.Element :=
  elem "measInfo" [("measInfoId", "C")] None
    [ elem "granPeriod" [("endTime", "2024-01-01T00:15:00")] None [];
      elem "measType" [("p", "10")] (Some "succTCHSeizures") [];
      elem "measType" [("p", "11")] (Some "dropTCH") [];
      elem "measValue" [("measObjLdn", "Cell1")] None [reading_10];
      elem "measValue" [("measObjLdn", "Cell2")] None [reading_10; reading_text] ].

Definition doc_scenario : ET.Element := sample_file [block_A [reading_10]].
Definition doc_leading_zero : ET.Element := sample_file [block_A [reading_010]].
Definition doc_values : ET.Element := sample_file [block_A [reading_pi; reading_text]].
Definition doc_no_granPeriod : ET.Element := sample_file [block_A [reading_10]; block_B].
Definition doc_bad_index : ET.Element := sample_file [block_A [reading_10; reading_bad]].
Definition doc_two_blocks : ET.Element := sample_file [block_dup; block_C].

(** A file system with these documents and two directories: [data], where
    [Afoo.xml.bak] is not XML, and [empty], where no name matches. *)
Definition sample_fs : FileSystem :=
  {| path_exists := fun path =>
       existsb (String.eqb path)
         ["scenario.xml"; "zero.xml"; "values.xml"; "nogran.xml"; "badindex.xml";
          "blocks.xml"; "data"; "empty"; "data/A1.xml"; "data/Afoo.xml.bak";
          "data/A2.xml"; "data/notes.txt"];
     listdir := fun path =>
       if String.eqb path "data" then Ok ["A1.xml"; "Afoo.xml.bak"; "notes.txt"; "A2.xml"]
       else if String.eqb path "empty" then Ok ["notes.txt"]
       else Raise (OSError "Not a directory");
     parse := fun path =>
       if String.eqb path "scenario.xml" then Ok doc_scenario
       else if String.eqb path "zero.xml" then Ok doc_leading_zero
       else if String.eqb path "values.xml" then Ok doc_values
       else if String.eqb path "nogran.xml" then Ok doc_no_granPeriod
       else if String.eqb path "badindex.xml" then Ok doc_bad_index
       else if String.eqb path "blocks.xml" then Ok doc_two_blocks
       else if String.eqb path "data/A1.xml" then Ok doc_scenario
       else if String.eqb path "data/A2.xml" then Ok doc_values
       else if String.eqb path "data/Afoo.xml.bak" then
         Raise (ParseError "syntax error: line 1, column 0")
       else Raise (OSError "No such file or directory") |}.

Definition sample_config (single dir : option string) (id : option string)
    (pv : option Z) (ldn : list string) : ParserConfig :=
  ParserConfig_init 4 single dir None id pv (Some ldn) None None.

Definition float_42 : py_value := VFloat (S754_finite false 5910974510923776 (-47)).

Definition sample_row (endTime id ldn : string) (p : Z) (value : py_value)
    (name : option string) : Measurement.t :=
  {| Measurement.endTime := Some endTime;
     Measurement.measInfoId := Some id;
     Measurement.measObjLdn := Some ldn;
     Measurement.p := p;
     Measurement.value := value;
     Measurement.measType := name |}.

(** The rows of [doc_two_blocks] without any filter. *)
Definition rows_two_blocks : list Measurement.t :=
  [ sample_row "2024-01-01T00:00:00" "A" "Cell1" 10 float_42 (Some "attTCHSeizures");
    sample_row "2024-01-01T00:00:00" "A" "Cell1" 11 (VText (Some "n/a")) None;
    sample_row "2024-01-01T00:15:00" "C" "Cell1" 10 float_42 (Some "succTCHSeizures");
    sample_row "2024-01-01T00:15:00" "C" "Cell2" 10 float_42 (Some "succTCHSeizures");
    sample_row "2024-01-01T00:15:00" "C" "Cell2" 11 (VText (Some "n/a")) (Some "dropTCH") ].

Definition sample_parser (config : ParserConfig) : PMParser :=
  set_output_handler (PMParser_init config) "out.csv".

Definition empty_world : World :=
  {| w_log := []; w_submitted := []; w_sink := [] |}.

(** ** Further definitions *)

Definition has_newline (s : string) : bool :=
  existsb (Ascii.eqb Re.newline) (list_ascii_of_string s).

(** *** [output.py]: the handlers and their factory *)

(** [str.lower] on the modelled range: [A]..[Z] and the capital letters
    U+00C0..U+00DE (not the multiplication sign U+00D7) move up by 32. *)
Definition lower_char (c : ascii) : ascii :=
  let n := N_of_ascii c in
  if ((65 <=? n) && (n <=? 90)
      || (192 <=? n) && (n <=? 222) && negb (n =? 215))%N
  then ascii_of_N (n + 32) else c.

Fixpoint str_lower (s : string) : string :=
  match s with
  | String c s' => String (lower_char c) (str_lower s')
  | EmptyString => EmptyString
  end.

(** A handler, with the file it writes to. *)
Inductive OutputHandler : Type :=
  | ExcelOutputHandler (filename : string)
  | SQLiteOutputHandler (db_file : string)
  | CSVOutputHandler (filename : string).

Definition handler_target (handler : OutputHandler) : string :=
  match handler with
  | ExcelOutputHandler f | SQLiteOutputHandler f | CSVOutputHandler f => f
  end.

(** [x or fallback] for an optional string. *)
Definition str_or (x : option string) (fallback : string) : string :=
  match x with
  | Some (String c s) => String c s
  | _ => fallback
  end.

(** The call of a constructor of class [cls] with the keyword arguments
    [kwargs], when its only parameter is [param], with default [None]: a
    keyword of another name is a [TypeError]; otherwise the value passed,
    or [None]. *)
Fixpoint bind_keyword (cls param : string) (kwargs : list (string * option string))
    : result (option string) :=
  match kwargs with
  | [] => Ok None
  | (key, value) :: rest =>
      if String.eqb key param then
        let* _ := bind_keyword cls param rest in
        Ok value
      else
        Raise (TypeError (cls +:+ ".__init__() got an unexpected keyword argument '"
                          +:+ key +:+ "'"))
  end.

(** [OutputHandlerFactory.create(output_type, **kwargs)].  [now] is the
    formatted time of the call and [create_tables db_file] what
    [SQLiteOutputHandler._create_tables] does on that file: nothing to
    report, or the exception of the database.  The result carries the
    handler and the databases in which the tables were created. *)
Definition create (now : string) (create_tables : string -> option py_exn)
    (output_type : string) (kwargs : list (string * option string))
    : result (OutputHandler * list string) :=
  let key := str_lower output_type in
  if String.eqb key "excel" then
    let* filename := bind_keyword "ExcelOutputHandler" "filename" kwargs in
    Ok (ExcelOutputHandler (str_or filename ("pm_data_" +:+ now +:+ ".xlsx")), [])
  else if String.eqb key "sqlite" then
    let* db_file := bind_keyword "SQLiteOutputHandler" "db_file" kwargs in
    let target := str_or db_file ("pm_data_" +:+ now +:+ ".db") in
    match create_tables target with
    | Some e => Raise e
    | None => Ok (SQLiteOutputHandler target, [target])
    end
  else if String.eqb key "csv" then
    let* filename := bind_keyword "CSVOutputHandler" "filename" kwargs in
    Ok (CSVOutputHandler (str_or filename ("pm_data_" +:+ now +:+ ".csv")), [])
  else Raise (ValueError ("Unsupported output type: " +:+ output_type)).

(** *** [cli.py]: [main] *)

(** The namespace that [parse_args] returns. *)
Record Args : Type := mkArgs {
  args_file : option string;
  args_directory : option string;
  args_measinfoid : option string;
  args_pvalue : option Z;
  args_objldn : option (list string);
  args_output_type : string;
  args_output_file : option string;
  args_workers : option Z;
  args_verbose : bool
}.

(** The two [except] clauses of [main]: the line logged, and with
    [--verbose] the line of [logger.exception] for an error that is not a
    [PMError]. *)
Definition report_error (verbose : bool) (e : py_exn) (w : World) : World :=
  if is_PMError e then log ("Parser error: " +:+ exn_str e) w
  else
    let w1 := log ("Unexpected error: " +:+ exn_str e) w in
    if verbose then log "Detailed error information:" w1 else w1.

(** [main], from the parsed arguments on: the exit status of the process,
    the world it leaves, and the databases in which tables were created. *)
Definition main (cpu_count : Z) (now : string)
    (create_tables : string -> option py_exn) (args : Args) (fs : FileSystem)
    (await_future : string -> ParserConfig -> result (list Measurement.t))
    (as_completed : list (result (list Measurement.t)) -> list (result (list Measurement.t)))
    (w : World) : Z * World * list string :=
  let config :=
    ParserConfig_init cpu_count (args_file args) (args_directory args) None
      (args_measinfoid args) (args_pvalue args) (args_objldn args)
      (Some (args_output_type args)) (args_workers args) in
  let parser := PMParser_init config in
  match create now create_tables (args_output_type args)
          [("filename", args_output_file args)] with
  | Raise e => (1, report_error (args_verbose args) e w, [])
  | Ok (handler, tables) =>
      let parser := set_output_handler parser (handler_target handler) in
      let w1 := log "Starting PM file processing..." w in
      match process_files parser fs await_future as_completed w1 with
      | (Ok results, w2) =>
          (0,
           log ("Successfully processed " +:+ Py.str (Z.of_nat (length results))
                +:+ " measurements") w2,
           tables)
      | (Raise e, w2) => (1, report_error (args_verbose args) e w2, tables)
      end
  end.

Definition sample_args (file directory : option string) (output_type : string)
    (output_file : option string) (workers : option Z) : Args :=
  {| args_file := file;
     args_directory := directory;
     args_measinfoid := None;
     args_pvalue := None;
     args_objldn := None;
     args_output_type := output_type;
     args_output_file := output_file;
     args_workers := workers;
     args_verbose := false |}.

(** ** Properties of the built-ins *)

Section Builtins.

Lemma scan_digits_string_of_uint (u : Decimal.uint) (prev : ascii) :
  Py.is_underscore prev = false ->
  Py.scan_digits prev (NilEmpty.string_of_uint u)
  = Some (NilEmpty.string_of_uint u, EmptyString).
Proof.
  revert prev.
  induction u as [|u IH|u IH|u IH|u IH|u IH|u IH|u IH|u IH|u IH|u IH];
    intros prev Hprev; cbn [NilEmpty.string_of_uint Py.scan_digits].
  1: now rewrite Hprev.
  all: cbn [Py.isdigit Py.code]; simpl; rewrite IH; reflexivity.
Qed.

Lemma digit_is_plain (c : ascii) :
  Py.isdigit c = true ->
  Py.isspace c = false /\ Py.is_underscore c = false
  /\ Ascii.eqb c "+" = false /\ Ascii.eqb c "-" = false.
Proof.
  destruct c as [[] [] [] [] [] [] [] []]; intros H;
    try discriminate H; repeat split; reflexivity.
Qed.

Lemma string_of_uint_head (u : Decimal.uint) :
  u <> Decimal.Nil ->
  exists c t, NilEmpty.string_of_uint u = String c t /\ Py.isdigit c = true.
Proof.
  destruct u; [congruence| ..]; intros _;
    cbn [NilEmpty.string_of_uint]; eexists _, _; split; reflexivity.
Qed.

Lemma int_of_str_signed (neg : bool) (u : Decimal.uint) :
  u <> Decimal.Nil ->
  Py.int_of_str
    ((if neg then String "-" EmptyString else EmptyString)
     +:+ NilEmpty.string_of_uint u)
  = Some (Py.apply_sign neg (Z.of_uint u)).
Proof.
  intros Hu.
  pose proof (scan_digits_string_of_uint u "000" eq_refl) as Hscan.
  pose proof (NilEmpty.usu u) as Hback.
  destruct (string_of_uint_head u Hu) as (c & t & Hs & Hc).
  destruct (digit_is_plain c Hc) as (Hsp & Hus & Hplus & Hminus).
  rewrite Hs in *. unfold Py.int_of_str.
  assert (Hsplit : Py.split_sign
            (Py.lstrip ((if neg then String "-" EmptyString else EmptyString)
                        +:+ String c t)) = (neg, String c t)).
  { destruct neg.
    - change (String "-" EmptyString +:+ String c t) with (String "-" (String c t)).
      reflexivity.
    - change (EmptyString +:+ String c t) with (String c t).
      cbn [Py.lstrip]. rewrite Hsp. cbn [Py.split_sign]. now rewrite Hplus, Hminus. }
  rewrite Hsplit. cbn [Py.startswith]. unfold Py.is_underscore in Hus.
  rewrite Hus, Hscan. cbn [Py.lstrip]. now rewrite Hback.
Qed.

Lemma string_of_uint_nonnil (u : Decimal.uint) :
  u <> Decimal.Nil -> NilZero.string_of_uint u = NilEmpty.string_of_uint u.
Proof. destruct u; [congruence| ..]; reflexivity. Qed.

(** [int(str(n)) == n]. *)
Lemma int_of_str_str (z : Z) : Py.int_of_str (Py.str z) = Some z.
Proof.
  unfold Py.str. destruct z as [|q|q]; [reflexivity| |];
    cbn [Z.to_int NilZero.string_of_int];
    assert (Hnn : Pos.to_uint q <> Decimal.Nil)
      by apply DecimalPos.Unsigned.to_uint_nonnil;
    rewrite (string_of_uint_nonnil _ Hnn).
  - transitivity (Some (Py.apply_sign false (Z.of_uint (Pos.to_uint q)))).
    + exact (int_of_str_signed false _ Hnn).
    + f_equal. apply (DecimalZ.of_to (Zpos q)).
  - transitivity (Some (Py.apply_sign true (Z.of_uint (Pos.to_uint q)))).
    + exact (int_of_str_signed true _ Hnn).
    + f_equal. apply (DecimalZ.of_to (Zneg q)).
Qed.

Lemma int_str (z : Z) : Py.int (Some (Py.str z)) = Ok z.
Proof. unfold Py.int. now rewrite int_of_str_str. Qed.

(** [float] raises nothing but [ValueError] and [TypeError]. *)
Lemma float_raises (x : option string) (e : py_exn) :
  Py.float x = Raise e -> (exists m, e = ValueError m) \/ (exists m, e = TypeError m).
Proof.
  unfold Py.float. destruct x as [s|].
  - destruct (Py.float_of_str s); [discriminate|]. intros [= <-]. left; eauto.
  - intros [= <-]. right; eauto.
Qed.

End Builtins.

(** ** The loops as sequencing over the elements that are not skipped *)

Section Sequencing.
Context {A B : Type}.

Lemma mapM_Ok (f : A -> result B) (l : list A) (ys : list B) :
  mapM f l = Ok ys <-> Forall2 (fun a y => f a = Ok y) l ys.
Proof.
  revert ys. induction l as [|a l IH]; intros ys; cbn [mapM].
  - split.
    + intros [= <-]. constructor.
    + intros H. inversion H. reflexivity.
  - split.
    + destruct (f a) as [b|e] eqn:Ha; cbn [bind]; [|discriminate].
      destruct (mapM f l) as [bs|e] eqn:Hl; cbn [bind]; [|discriminate].
      intros [= <-]. constructor; [exact Ha|]. now apply IH.
    + intros H. inversion H as [|a' y l' ys' Ha Hl]; subst.
      rewrite Ha. cbn [bind]. apply IH in Hl. rewrite Hl. reflexivity.
Qed.

Lemma mapM_Raise (f : A -> result B) (l : list A) (e : py_exn) :
  mapM f l = Raise e -> exists a, In a l /\ f a = Raise e.
Proof.
  induction l as [|a l IH]; cbn [mapM]; [discriminate|].
  destruct (f a) as [b|e'] eqn:Ha; cbn [bind].
  - destruct (mapM f l) as [bs|e''] eqn:Hl; cbn [bind]; [discriminate|].
    intros [= <-]. destruct (IH eq_refl) as (x & Hx & Hfx).
    exists x. split; [now right | exact Hfx].
  - intros [= <-]. exists a. split; [now left | exact Ha].
Qed.

Lemma mapM_fails (f : A -> result B) (l : list A) (a : A) (e : py_exn) :
  In a l -> f a = Raise e -> exists e', mapM f l = Raise e'.
Proof.
  induction l as [|x l IH]; intros Hin Ha; [destruct Hin|].
  cbn [mapM]. destruct Hin as [->|Hin].
  - rewrite Ha. cbn [bind]. eauto.
  - destruct (f x); cbn [bind]; [|eauto].
    destruct (IH Hin Ha) as [e' ->]. cbn [bind]. eauto.
Qed.

Lemma concat_mapM_Ok (f : A -> result (list B)) (l : list A) (ys : list B) :
  concat_mapM f l = Ok ys <->
  exists yss, Forall2 (fun a y => f a = Ok y) l yss /\ ys = concat yss.
Proof.
  revert ys. induction l as [|a l IH]; intros ys; cbn [concat_mapM].
  - split.
    + intros [= <-]. exists []. split; [constructor | reflexivity].
    + intros (yss & H & ->). inversion H. reflexivity.
  - split.
    + destruct (f a) as [b|e] eqn:Ha; cbn [bind]; [|discriminate].
      destruct (concat_mapM f l) as [bs|e] eqn:Hl; cbn [bind]; [|discriminate].
      intros [= <-]. destruct (proj1 (IH bs) eq_refl) as (yss & Hy & ->).
      exists (b :: yss). split; [now constructor | reflexivity].
    + intros (yss & H & ->). inversion H as [|a' y l' ys' Ha Hl]; subst.
      rewrite Ha. cbn [bind].
      rewrite (proj2 (IH (concat ys')) (ex_intro _ ys' (conj Hl eq_refl))).
      reflexivity.
Qed.

Lemma concat_mapM_Raise (f : A -> result (list B)) (l : list A) (e : py_exn) :
  concat_mapM f l = Raise e -> exists a, In a l /\ f a = Raise e.
Proof.
  induction l as [|a l IH]; cbn [concat_mapM]; [discriminate|].
  destruct (f a) as [b|e'] eqn:Ha; cbn [bind].
  - destruct (concat_mapM f l) as [bs|e''] eqn:Hl; cbn [bind]; [discriminate|].
    intros [= <-]. destruct (IH eq_refl) as (x & Hx & Hfx).
    exists x. split; [now right | exact Hfx].
  - intros [= <-]. exists a. split; [now left | exact Ha].
Qed.

Lemma concat_mapM_fails (f : A -> result (list B)) (l : list A) (a : A) (e : py_exn) :
  In a l -> f a = Raise e -> exists e', concat_mapM f l = Raise e'.
Proof.
  induction l as [|x l IH]; intros Hin Ha; [destruct Hin|].
  cbn [concat_mapM]. destruct Hin as [->|Hin].
  - rewrite Ha. cbn [bind]. eauto.
  - destruct (f x); cbn [bind]; [|eauto].
    destruct (IH Hin Ha) as [e' ->]. cbn [bind]. eauto.
Qed.

End Sequencing.

Lemma Forall2_flat_map {A B C : Type} (R : B -> C -> Prop) (g : A -> list B)
    (l : list A) (yss : list (list C)) :
  Forall2 (fun a ys => Forall2 R (g a) ys) l yss ->
  Forall2 R (flat_map g l) (concat yss).
Proof.
  induction 1 as [|a ys l yss Ha _ IH]; cbn [flat_map concat].
  - constructor.
  - now apply Forall2_app.
Qed.

Section Loops.
Variable self : XMLProcessor.
Variable config : ParserConfig.

Lemma for_r_eq endTime mid obj_ldn meas_types rs acc :
  for_r config endTime mid obj_ldn meas_types rs acc
  = let* rows :=
      mapM (row_r endTime mid obj_ldn meas_types)
        (List.filter (fun r => negb (skip_r config (ET.get r "p"))) rs) in
    Ok (acc ++ rows).
Proof.
  revert acc. induction rs as [|r rs IH]; intros acc; cbn [for_r List.filter mapM bind].
  - now rewrite app_nil_r.
  - destruct (skip_r config (ET.get r "p")); cbn [negb].
    + apply IH.
    + cbn [mapM]. unfold row_r at 1.
      destruct (read_value r) as [v|e]; cbn [bind]; [|reflexivity].
      destruct (Py.int (ET.get r "p")) as [n|e]; cbn [bind]; [|reflexivity].
      rewrite IH.
      destruct (mapM _ _) as [rows|e]; cbn [bind]; [|reflexivity].
      now rewrite <- app_assoc.
Qed.

Lemma for_measValue_eq endTime mid meas_types mvs acc :
  for_measValue self config endTime mid meas_types mvs acc
  = let* rows :=
      concat_mapM (group_rows self config endTime mid meas_types)
        (List.filter (fun mv => negb (skip_measValue config (ET.get mv "measObjLdn"))) mvs) in
    Ok (acc ++ rows).
Proof.
  revert acc. induction mvs as [|mv mvs IH]; intros acc;
    cbn [for_measValue List.filter concat_mapM bind].
  - now rewrite app_nil_r.
  - destruct (skip_measValue config (ET.get mv "measObjLdn")); cbn [negb].
    + apply IH.
    + cbn [concat_mapM]. rewrite for_r_eq. unfold group_rows at 1, readings.
      destruct (mapM _ _) as [rows|e]; cbn [bind]; [|reflexivity].
      rewrite IH.
      destruct (concat_mapM _ _) as [rows'|e]; cbn [bind]; [|reflexivity].
      now rewrite <- app_assoc.
Qed.

Lemma for_measInfo_eq mis acc :
  for_measInfo self config mis acc
  = let* rows :=
      concat_mapM (block_rows self config)
        (List.filter (fun mi => negb (skip_measInfo config mi)) mis) in
    Ok (acc ++ rows).
Proof.
  revert acc. induction mis as [|mi mis IH]; intros acc;
    cbn [for_measInfo List.filter concat_mapM bind].
  - now rewrite app_nil_r.
  - destruct (skip_measInfo config mi); cbn [negb].
    + apply IH.
    + cbn [concat_mapM]. unfold block_rows at 1.
      destruct (get_endTime _) as [endTime|e]; cbn [bind]; [|reflexivity].
      rewrite for_measValue_eq. fold (groups self config mi).
      destruct (concat_mapM _ (groups self config mi)) as [rows|e]; cbn [bind];
        [|reflexivity].
      rewrite IH.
      destruct (concat_mapM _ _) as [rows'|e]; cbn [bind]; [|reflexivity].
      now rewrite <- app_assoc.
Qed.

(** The body of [process_file], block by block. *)
Lemma process_file_body_eq fs file_path :
  process_file_body self fs file_path config
  = let* root := parse fs file_path in
    concat_mapM (block_rows self config) (blocks self config root).
Proof.
  unfold process_file_body. destruct (parse fs file_path) as [root|e]; cbn [bind];
    [|reflexivity].
  rewrite for_measInfo_eq. fold (blocks self config root).
  now destruct (concat_mapM _ _).
Qed.

End Loops.

(** ** What an extraction returns, and when it fails *)

Lemma Forall2_map_l {A B C : Type} (R : B -> C -> Prop) (g : A -> B)
    (l : list A) (ys : list C) :
  Forall2 (fun a y => R (g a) y) l ys -> Forall2 R (map g l) ys.
Proof. induction 1; cbn [map]; now constructor. Qed.

Lemma read_value_total (r : ET.Element) :
  read_value r
  = Ok (match ET.text r with
        | Some s =>
            match Py.float_of_str s with
            | Some f => VFloat f
            | None => VText (Some s)
            end
        | None => VText None
        end).
Proof.
  unfold read_value, Py.float. destruct (ET.text r) as [s|]; [|reflexivity].
  now destruct (Py.float_of_str s).
Qed.

Section Extraction.
Variable self : XMLProcessor.
Variable config : ParserConfig.

Lemma in_selected (root : ET.Element) (mi mv r : ET.Element) :
  In (mi, mv, r) (selected self config root) <->
  In mi (blocks self config root) /\ In mv (groups self config mi)
  /\ In r (readings self config mv).
Proof.
  unfold selected. rewrite in_flat_map. split.
  - intros (mi' & Hmi & H). apply in_flat_map in H as (mv' & Hmv & H).
    apply in_map_iff in H as (r' & [= <- <- <-] & Hr). auto.
  - intros (Hmi & Hmv & Hr). exists mi. split; [exact Hmi|].
    apply in_flat_map. exists mv. split; [exact Hmv|].
    apply in_map_iff. now exists r.
Qed.

Lemma group_rows_Ok (mi mv : ET.Element) (endTime : option string) (rows : list Measurement.t) :
  get_endTime (ET.find mi (create_xpath_string self "granPeriod" [])) = Ok endTime ->
  group_rows self config endTime (ET.get mi "measInfoId")
    (build_meas_types (ET.findall mi (create_xpath_string self "measType" []))) mv
  = Ok rows ->
  Forall2 (fun t row => row_of self t = Ok row)
    (map (fun r => (mi, mv, r)) (readings self config mv)) rows.
Proof.
  intros Hend H. apply mapM_Ok in H. apply Forall2_map_l.
  eapply Forall2_impl; [exact H|].
  intros r row Hrow. cbn [row_of]. rewrite Hend. exact Hrow.
Qed.

Lemma block_rows_Ok (mi : ET.Element) (rows : list Measurement.t) :
  block_rows self config mi = Ok rows ->
  Forall2 (fun t row => row_of self t = Ok row)
    (flat_map (fun mv => map (fun r => (mi, mv, r)) (readings self config mv))
       (groups self config mi))
    rows.
Proof.
  unfold block_rows.
  destruct (get_endTime _) as [endTime|e] eqn:Hend; cbn [bind]; [|discriminate].
  intros H. apply concat_mapM_Ok in H as (yss & Hy & ->).
  apply Forall2_flat_map. eapply Forall2_impl; [exact Hy|].
  intros mv ys Hg. now apply (group_rows_Ok mi mv endTime).
Qed.

(** A successful extraction returns one row per selected reading, in the
    order of the loops, each built from its own block, group and reading. *)
Lemma extract_rows (fs : FileSystem) (file_path : string) (rows : list Measurement.t) :
  process_file_body self fs file_path config = Ok rows ->
  exists root,
    parse fs file_path = Ok root
    /\ Forall2 (fun t row => row_of self t = Ok row) (selected self config root) rows.
Proof.
  rewrite process_file_body_eq.
  destruct (parse fs file_path) as [root|e]; cbn [bind]; [|discriminate].
  intros H. exists root. split; [reflexivity|].
  apply concat_mapM_Ok in H as (yss & Hy & ->).
  unfold selected. apply Forall2_flat_map.
  eapply Forall2_impl; [exact Hy|]. intros mi ys. apply block_rows_Ok.
Qed.

(** A block that is not skipped and has no [granPeriod] fails the body. *)
Lemma block_without_granPeriod_fails (fs : FileSystem) (file_path : string)
    (root mi : ET.Element) :
  parse fs file_path = Ok root ->
  In mi (blocks self config root) ->
  ET.find mi (create_xpath_string self "granPeriod" []) = None ->
  exists e, process_file_body self fs file_path config = Raise e.
Proof.
  intros Hparse Hmi Hfind. rewrite process_file_body_eq, Hparse. cbn [bind].
  eapply concat_mapM_fails; [exact Hmi|].
  unfold block_rows. rewrite Hfind. reflexivity.
Qed.

(** A selected reading whose index [int] rejects fails the body. *)
Lemma reading_without_index_fails (fs : FileSystem) (file_path : string)
    (root mi mv r : ET.Element) (e0 : py_exn) :
  parse fs file_path = Ok root ->
  In (mi, mv, r) (selected self config root) ->
  Py.int (ET.get r "p") = Raise e0 ->
  exists e, process_file_body self fs file_path config = Raise e.
Proof.
  intros Hparse Hsel Hint. apply in_selected in Hsel as (Hmi & Hmv & Hr).
  rewrite process_file_body_eq, Hparse. cbn [bind].
  assert (Hblock : exists e, block_rows self config mi = Raise e).
  { unfold block_rows. destruct (get_endTime _) as [endTime|e]; cbn [bind]; [|eauto].
    assert (Hgroup : exists e,
      group_rows self config endTime (ET.get mi "measInfoId")
        (build_meas_types (ET.findall mi (create_xpath_string self "measType" []))) mv
      = Raise e).
    { unfold group_rows. eapply mapM_fails; [exact Hr|].
      unfold row_r. rewrite read_value_total. cbn [bind]. rewrite Hint. reflexivity. }
    destruct Hgroup as [e He]. eapply concat_mapM_fails; [exact Hmv | exact He]. }
  destruct Hblock as [e He]. eapply concat_mapM_fails; [exact Hmi | exact He].
Qed.

Lemma well_formed_block (root mi : ET.Element) :
  well_formed self root = true ->
  In mi (ET.findall root (create_xpath_string self "measInfo" [])) ->
  (exists g, ET.find mi (create_xpath_string self "granPeriod" []) = Some g)
  /\ forall mv r,
       In mv (ET.findall mi (create_xpath_string self "measValue" [])) ->
       In r (ET.findall mv (create_xpath_string self "r" [])) ->
       exists n, Py.int (ET.get r "p") = Ok n.
Proof.
  unfold well_formed. rewrite forallb_forall. intros Hwf Hmi.
  specialize (Hwf mi Hmi). apply andb_true_iff in Hwf as [Hg Hr]. split.
  - destruct (ET.find mi _) as [g|]; [eauto | discriminate].
  - intros mv r Hmv Hin. rewrite forallb_forall in Hr. specialize (Hr mv Hmv).
    rewrite forallb_forall in Hr. specialize (Hr r Hin). unfold int_ok in Hr.
    destruct (Py.int (ET.get r "p")) as [n|]; [eauto | discriminate].
Qed.

(** On a well-formed document the body returns, whatever the filters. *)
Lemma extract_total (fs : FileSystem) (file_path : string) (root : ET.Element) :
  parse fs file_path = Ok root ->
  well_formed self root = true ->
  exists rows, process_file_body self fs file_path config = Ok rows.
Proof.
  intros Hparse Hwf.
  destruct (process_file_body self fs file_path config) as [rows|e] eqn:Hbody;
    [eauto|exfalso].
  rewrite process_file_body_eq, Hparse in Hbody. cbn [bind] in Hbody.
  apply concat_mapM_Raise in Hbody as (mi & Hmi & Hblock).
  apply filter_In in Hmi as [Hmi _].
  destruct (well_formed_block root mi Hwf Hmi) as [[g Hg] Hreadings].
  unfold block_rows in Hblock. rewrite Hg in Hblock. cbn [get_endTime bind] in Hblock.
  apply concat_mapM_Raise in Hblock as (mv & Hmv & Hgroup).
  apply filter_In in Hmv as [Hmv _].
  apply mapM_Raise in Hgroup as (r & Hr & Hrow).
  apply filter_In in Hr as [Hr _].
  destruct (Hreadings mv r Hmv Hr) as [n Hn].
  unfold row_r in Hrow. rewrite read_value_total, Hn in Hrow. discriminate.
Qed.

(** [process_file] returns what its body returns, and turns every exception
    of the body into one [PMError] that carries the path. *)
Lemma process_file_Ok (fs : FileSystem) (file_path : string) (rows : list Measurement.t) :
  process_file self fs file_path config = Ok rows
  <-> process_file_body self fs file_path config = Ok rows.
Proof.
  unfold process_file.
  destruct (process_file_body self fs file_path config); split; congruence.
Qed.

Lemma process_file_Raise (fs : FileSystem) (file_path : string) (e : py_exn) :
  process_file_body self fs file_path config = Raise e ->
  process_file self fs file_path config
  = Raise (PMError ("Failed to process " +:+ file_path +:+ ": " +:+ exn_str e)).
Proof. unfold process_file. now intros ->. Qed.

End Extraction.

(** ** The fields of a row *)

Lemma row_of_inv (self : XMLProcessor) (mi mv r : ET.Element) (row : Measurement.t) :
  row_of self (mi, mv, r) = Ok row ->
  exists g n,
    ET.find mi (create_xpath_string self "granPeriod" []) = Some g
    /\ Py.int (ET.get r "p") = Ok n
    /\ row = {| Measurement.endTime := ET.get g "endTime";
                Measurement.measInfoId := ET.get mi "measInfoId";
                Measurement.measObjLdn := ET.get mv "measObjLdn";
                Measurement.p := n;
                Measurement.value := value_of_text (ET.text r);
                Measurement.measType :=
                  dict_get
                    (build_meas_types
                       (ET.findall mi (create_xpath_string self "measType" [])))
                    (ET.get r "p") |}.
Proof.
  cbn [row_of]. destruct (ET.find mi _) as [g|]; cbn [get_endTime bind]; [|discriminate].
  unfold row_r. rewrite read_value_total. cbn [bind].
  destruct (Py.int (ET.get r "p")) as [n|]; cbn [bind]; [|discriminate].
  intros [= <-]. exists g, n. auto.
Qed.

Lemma Forall2_impl_in {A B : Type} (R Q : A -> B -> Prop) (l : list A) (ys : list B) :
  Forall2 R l ys ->
  (forall a y, In a l -> R a y -> Q a y) ->
  Forall2 Q l ys.
Proof.
  induction 1 as [|a y l ys Hay _ IH]; intros HQ; constructor.
  - apply HQ; [now left | exact Hay].
  - apply IH. intros a' y' Hin. apply HQ. now right.
Qed.

Lemma Forall2_in_r {A B : Type} (R : A -> B -> Prop) (l : list A) (ys : list B) (y : B) :
  Forall2 R l ys -> In y ys -> exists a, In a l /\ R a y.
Proof.
  induction 1 as [|a y' l ys Hay _ IH]; intros Hin; [destruct Hin|].
  destruct Hin as [<-|Hin].
  - exists a. split; [now left | exact Hay].
  - destruct (IH Hin) as (a' & Ha' & HR). exists a'. split; [now right | exact HR].
Qed.

Lemma Forall2_in_l {A B : Type} (R : A -> B -> Prop) (l : list A) (ys : list B) (a : A) :
  Forall2 R l ys -> In a l -> exists y, In y ys /\ R a y.
Proof.
  induction 1 as [|a' y l ys Hay _ IH]; intros Hin; [destruct Hin|].
  destruct Hin as [<-|Hin].
  - exists y. split; [now left | exact Hay].
  - destruct (IH Hin) as (y' & Hy' & HR). exists y'. split; [now right | exact HR].
Qed.

(** ** The counter-index filter *)

Lemma skip_r_active (config : ParserConfig) (v : Z) (p : option string) :
  p_value config = Some v -> v <> 0 ->
  (skip_r config p = false <-> p = Some (Py.str v)).
Proof.
  intros Hv Hnz. unfold skip_r. rewrite Hv. cbn [Py.truthy_int fmap option_fmap option_map].
  destruct (Z.eqb_spec v 0) as [|_]; [contradiction|]. cbn [negb andb].
  rewrite negb_false_iff, bool_decide_eq_true. reflexivity.
Qed.

(** C1 (as the claim states it, refuted): with [p_value = 10] the reading
    whose index is written [010] is skipped, although [int] of its index is
    10: the only reading of the file yields no row. *)
Lemma leading_zero_reading_is_skipped :
  ET.get reading_010 "p" = Some "010"
  /\ Py.int (Some "010") = Ok 10
  /\ p_value (sample_config (Some "zero.xml") None None (Some 10) []) = Some 10
  /\ selected sample_processor (sample_config (Some "zero.xml") None None None [])
       doc_leading_zero
     = [(block_A [reading_010],
         elem "measValue" [("measObjLdn", "Cell1")] None [reading_010],
         reading_010)]
  /\ process_file sample_processor sample_fs "zero.xml"
       (sample_config (Some "zero.xml") None None (Some 10) [])
     = Ok [].
Proof. repeat split; vm_compute; reflexivity. Qed.

(** C1 (amended): when [p_value] is set to a non-zero integer [v], a
    reading of a block and group that are not skipped yields a row exactly
    when its [p] attribute is the decimal text [str(v)]; every reading that
    passes yields one row, and the integer of that row is [v]. *)
Theorem p_filter_compares_decimal_text (self : XMLProcessor) (config : ParserConfig)
    (fs : FileSystem) (file_path : string) (v : Z) (rows : list Measurement.t) :
  p_value config = Some v ->
  v <> 0 ->
  process_file self fs file_path config = Ok rows ->
  exists root,
    parse fs file_path = Ok root
    /\ (forall mi mv r,
          In mi (blocks self config root) ->
          In mv (groups self config mi) ->
          In r (ET.findall mv (create_xpath_string self "r" [])) ->
          (In (mi, mv, r) (selected self config root)
           <-> ET.get r "p" = Some (Py.str v)))
    /\ Forall2 (fun t row => row_of self t = Ok row /\ Measurement.p row = v)
         (selected self config root) rows.
Proof.
  intros Hv Hnz Hrun. apply process_file_Ok in Hrun.
  destruct (extract_rows self config fs file_path rows Hrun) as (root & Hparse & Hrows).
  exists root. split; [exact Hparse|]. split.
  - intros mi mv r Hmi Hmv Hr. rewrite in_selected. unfold readings.
    rewrite filter_In, negb_true_iff, (skip_r_active config v _ Hv Hnz). tauto.
  - eapply Forall2_impl_in; [exact Hrows|].
    intros [[mi mv] r] row Hin Hrow. split; [exact Hrow|].
    apply in_selected in Hin as (_ & _ & Hr). unfold readings in Hr.
    apply filter_In in Hr as [_ Hr]. apply negb_true_iff in Hr.
    apply (skip_r_active config v _ Hv Hnz) in Hr.
    apply row_of_inv in Hrow as (g & n & _ & Hn & ->). cbn [Measurement.p].
    rewrite Hr, int_str in Hn. congruence.
Qed.

Lemma p_filter_compares_decimal_text_witness :
  exists root,
    parse sample_fs "scenario.xml" = Ok root
    /\ (forall mi mv r,
          In mi (blocks sample_processor
                   (sample_config (Some "scenario.xml") None None (Some 10) []) root) ->
          In mv (groups sample_processor
                   (sample_config (Some "scenario.xml") None None (Some 10) []) mi) ->
          In r (ET.findall mv (create_xpath_string sample_processor "r" [])) ->
          (In (mi, mv, r)
              (selected sample_processor
                 (sample_config (Some "scenario.xml") None None (Some 10) []) root)
           <-> ET.get r "p" = Some (Py.str 10)))
    /\ Forall2 (fun t row => row_of sample_processor t = Ok row /\ Measurement.p row = 10)
         (selected sample_processor
            (sample_config (Some "scenario.xml") None None (Some 10) []) root)
         [ {| Measurement.endTime := Some "2024-01-01T00:00:00";
              Measurement.measInfoId := Some "A";
              Measurement.measObjLdn := Some "Cell1";
              Measurement.p := 10;
              Measurement.value := VFloat (S754_finite false 5910974510923776 (-47));
              Measurement.measType := Some "attTCHSeizures" |} ].
Proof.
  apply (p_filter_compares_decimal_text sample_processor
           (sample_config (Some "scenario.xml") None None (Some 10) [])
           sample_fs "scenario.xml" 10).
  - reflexivity.
  - lia.
  - vm_compute. reflexivity.
Defined.

(** ** Structural failures *)

(** C4: a block that passes the [measInfoId] test and has no [granPeriod]
    makes [process_file] fail for the whole file, with one [PMError] whose
    message carries the path; no row of the file is returned, whatever the
    blocks before it produced. *)
Theorem missing_granPeriod_fails_whole_file (self : XMLProcessor)
    (config : ParserConfig) (fs : FileSystem) (file_path : string)
    (root mi : ET.Element) :
  parse fs file_path = Ok root ->
  In mi (ET.findall root (create_xpath_string self "measInfo" [])) ->
  skip_measInfo config mi = false ->
  ET.find mi (create_xpath_string self "granPeriod" []) = None ->
  exists cause,
    process_file self fs file_path config
    = Raise (PMError ("Failed to process " +:+ file_path +:+ ": " +:+ cause)).
Proof.
  intros Hparse Hmi Hskip Hfind.
  assert (Hin : In mi (blocks self config root)).
  { unfold blocks. apply filter_In. split; [exact Hmi|]. now rewrite Hskip. }
  destruct (block_without_granPeriod_fails self config fs file_path root mi
              Hparse Hin Hfind) as [e He].
  exists (exn_str e). now apply process_file_Raise.
Qed.

Lemma missing_granPeriod_fails_whole_file_witness :
  (parse sample_fs "nogran.xml" = Ok doc_no_granPeriod
   /\ In block_B (ET.findall doc_no_granPeriod
                    (create_xpath_string sample_processor "measInfo" []))
   /\ process_file sample_processor sample_fs "nogran.xml"
        (sample_config (Some "nogran.xml") None (Some "A") None [])
      = Ok [ {| Measurement.endTime := Some "2024-01-01T00:00:00";
                Measurement.measInfoId := Some "A";
                Measurement.measObjLdn := Some "Cell1";
                Measurement.p := 10;
                Measurement.value := VFloat (S754_finite false 5910974510923776 (-47));
                Measurement.measType := Some "attTCHSeizures" |} ])
  /\ exists cause,
       process_file sample_processor sample_fs "nogran.xml"
         (sample_config (Some "nogran.xml") None None None [])
       = Raise (PMError ("Failed to process " +:+ "nogran.xml" +:+ ": " +:+ cause)).
Proof.
  split.
  - repeat split; vm_compute; auto.
  - apply (missing_granPeriod_fails_whole_file sample_processor
             (sample_config (Some "nogran.xml") None None None [])
             sample_fs "nogran.xml" doc_no_granPeriod block_B).
    + reflexivity.
    + vm_compute. auto.
    + reflexivity.
    + reflexivity.
Defined.

(** C10: a reading that passes the three tests and whose [p] attribute is
    absent, or is a string that [int] rejects, makes [process_file] fail for
    the whole file with a [PMError] that carries the path. *)
Theorem unreadable_index_fails_whole_file (self : XMLProcessor)
    (config : ParserConfig) (fs : FileSystem) (file_path : string)
    (root mi mv r : ET.Element) :
  parse fs file_path = Ok root ->
  In (mi, mv, r) (selected self config root) ->
  (ET.get r "p" = None
   \/ exists s, ET.get r "p" = Some s /\ Py.int_of_str s = None) ->
  exists cause,
    process_file self fs file_path config
    = Raise (PMError ("Failed to process " +:+ file_path +:+ ": " +:+ cause)).
Proof.
  intros Hparse Hsel Hp.
  assert (Hint : exists e0, Py.int (ET.get r "p") = Raise e0).
  { destruct Hp as [-> | (s & -> & Hs)]; cbn [Py.int]; [eauto|].
    rewrite Hs. eauto. }
  destruct Hint as [e0 He0].
  destruct (reading_without_index_fails self config fs file_path root mi mv r e0
              Hparse Hsel He0) as [e He].
  exists (exn_str e). now apply process_file_Raise.
Qed.

Lemma unreadable_index_fails_whole_file_witness :
  (parse sample_fs "badindex.xml" = Ok doc_bad_index
   /\ ET.get reading_bad "p" = Some "ten" /\ Py.int_of_str "ten" = None)
  /\ exists cause,
       process_file sample_processor sample_fs "badindex.xml"
         (sample_config (Some "badindex.xml") None (Some "A") None ["Cell1"])
       = Raise (PMError ("Failed to process " +:+ "badindex.xml" +:+ ": " +:+ cause)).
Proof.
  split.
  - repeat split; vm_compute; reflexivity.
  - apply (unreadable_index_fails_whole_file sample_processor
             (sample_config (Some "badindex.xml") None (Some "A") None ["Cell1"])
             sample_fs "badindex.xml" doc_bad_index
             (block_A [reading_10; reading_bad])
             (elem "measValue" [("measObjLdn", "Cell1")] None [reading_10; reading_bad])
             reading_bad).
    + reflexivity.
    + vm_compute. auto.
    + right. exists "ten". split; vm_compute; reflexivity.
Defined.

(** With the counter-index test active, every reading that passes it has an
    index that [int] accepts: an unreadable index can only reach the
    conversion when no counter index is configured. *)
Lemma active_p_filter_passes_readable_indices (config : ParserConfig) (v : Z)
    (p : option string) :
  p_value config = Some v -> v <> 0 -> skip_r config p = false -> Py.int p = Ok v.
Proof.
  intros Hv Hnz Hskip. apply (skip_r_active config v p Hv Hnz) in Hskip as ->.
  apply int_str.
Qed.

(** ** The value and the counter name of a row *)

(** C6: the value of every row is the float read from the text of its
    reading when [float] accepts the text, and otherwise the text itself,
    unchanged; reading the value never raises, and every selected reading
    still yields its row. The text [3.14] gives the float 3.14. *)
Theorem value_is_float_or_raw_text (self : XMLProcessor) (config : ParserConfig)
    (fs : FileSystem) (file_path : string) (rows : list Measurement.t) :
  process_file self fs file_path config = Ok rows ->
  (exists root,
     parse fs file_path = Ok root
     /\ Forall2 (fun t row =>
                   match Py.float (ET.text (snd t)) with
                   | Ok f => Measurement.value row = VFloat f
                   | Raise _ => Measurement.value row = VText (ET.text (snd t))
                   end)
          (selected self config root) rows)
  /\ (forall r, exists v, read_value r = Ok v)
  /\ Py.float (Some "3.14") = Ok (Prim2SF 0x1.91eb851eb851fp+1%float).
Proof.
  intros Hrun. apply process_file_Ok in Hrun.
  destruct (extract_rows self config fs file_path rows Hrun) as (root & Hparse & Hrows).
  split; [|split].
  - exists root. split; [exact Hparse|].
    eapply Forall2_impl; [exact Hrows|].
    intros [[mi mv] r] row Hrow. cbn [snd].
    apply row_of_inv in Hrow as (g & n & _ & _ & ->). cbn [Measurement.value].
    unfold value_of_text, Py.float. destruct (ET.text r) as [s|]; [|reflexivity].
    now destruct (Py.float_of_str s).
  - intros r. rewrite read_value_total. eauto.
  - vm_compute. reflexivity.
Qed.

Lemma value_is_float_or_raw_text_witness :
  (exists root,
     parse sample_fs "values.xml" = Ok root
     /\ Forall2 (fun t row =>
                   match Py.float (ET.text (snd t)) with
                   | Ok f => Measurement.value row = VFloat f
                   | Raise _ => Measurement.value row = VText (ET.text (snd t))
                   end)
          (selected sample_processor
             (sample_config (Some "values.xml") None None None []) root)
          [ {| Measurement.endTime := Some "2024-01-01T00:00:00";
               Measurement.measInfoId := Some "A";
               Measurement.measObjLdn := Some "Cell1";
               Measurement.p := 10;
               Measurement.value := VFloat (S754_finite false 7070651414971679 (-51));
               Measurement.measType := Some "attTCHSeizures" |};
            {| Measurement.endTime := Some "2024-01-01T00:00:00";
               Measurement.measInfoId := Some "A";
               Measurement.measObjLdn := Some "Cell1";
               Measurement.p := 11;
               Measurement.value := VText (Some "n/a");
               Measurement.measType := None |} ])
  /\ (forall r, exists v, read_value r = Ok v)
  /\ Py.float (Some "3.14") = Ok (Prim2SF 0x1.91eb851eb851fp+1%float).
Proof.
  apply (value_is_float_or_raw_text sample_processor
           (sample_config (Some "values.xml") None None None [])
           sample_fs "values.xml").
  vm_compute. reflexivity.
Defined.

(** The table of a block resolves a key to its last declaration. *)
Lemma build_meas_types_lookup (mts : list ET.Element) (k : option string) :
  build_meas_types mts !! k = ET.text <$> last_decl k mts.
Proof.
  unfold build_meas_types, last_decl.
  induction mts as [|mt mts IH] using rev_ind.
  - cbn. apply lookup_empty.
  - rewrite fold_left_app, rev_unit. cbn [fold_left List.find].
    destruct (bool_decide_reflect (ET.get mt "p" = k)) as [Heq|Hne].
    + rewrite Heq. apply lookup_insert_eq.
    + rewrite lookup_insert_ne by exact Hne. exact IH.
Qed.

Lemma dict_get_build_meas_types (mts : list ET.Element) (k : option string) :
  dict_get (build_meas_types mts) k
  = match last_decl k mts with
    | Some mt => ET.text mt
    | None => None
    end.
Proof.
  unfold dict_get. rewrite build_meas_types_lookup.
  now destruct (last_decl k mts).
Qed.

(** C7: the [measType] of every row is the text of the last [measType]
    element of its own block that carries the [p] attribute of its reading,
    and is absent ([None]) when the block declares none; only the
    declarations found in that block are consulted. *)
Theorem measType_is_last_declaration_of_block (self : XMLProcessor)
    (config : ParserConfig) (fs : FileSystem) (file_path : string)
    (rows : list Measurement.t) :
  process_file self fs file_path config = Ok rows ->
  exists root,
    parse fs file_path = Ok root
    /\ Forall2 (fun t row =>
                  let '(mi, _, r) := t in
                  Measurement.measType row
                  = match last_decl (ET.get r "p")
                            (ET.findall mi (create_xpath_string self "measType" [])) with
                    | Some mt => ET.text mt
                    | None => None
                    end)
         (selected self config root) rows.
Proof.
  intros Hrun. apply process_file_Ok in Hrun.
  destruct (extract_rows self config fs file_path rows Hrun) as (root & Hparse & Hrows).
  exists root. split; [exact Hparse|].
  eapply Forall2_impl; [exact Hrows|].
  intros [[mi mv] r] row Hrow.
  apply row_of_inv in Hrow as (g & n & _ & _ & ->). cbn [Measurement.measType].
  apply dict_get_build_meas_types.
Qed.

Lemma measType_is_last_declaration_of_block_witness :
  exists root,
    parse sample_fs "blocks.xml" = Ok root
    /\ Forall2 (fun t row =>
                  let '(mi, _, r) := t in
                  Measurement.measType row
                  = match last_decl (ET.get r "p")
                            (ET.findall mi
                               (create_xpath_string sample_processor "measType" [])) with
                    | Some mt => ET.text mt
                    | None => None
                    end)
         (selected sample_processor
            (sample_config (Some "blocks.xml") None None None []) root)
         rows_two_blocks.
Proof.
  apply (measType_is_last_declaration_of_block sample_processor
           (sample_config (Some "blocks.xml") None None None [])
           sample_fs "blocks.xml").
  vm_compute. reflexivity.
Defined.

(** ** The three filters together *)

Section Filters.
Variable self : XMLProcessor.
Variable config : ParserConfig.

Lemma in_selected_full (cfg : ParserConfig) (root mi mv r : ET.Element) :
  In (mi, mv, r) (selected self cfg root) <->
  (In mi (ET.findall root (create_xpath_string self "measInfo" []))
   /\ skip_measInfo cfg mi = false)
  /\ (In mv (ET.findall mi (create_xpath_string self "measValue" []))
      /\ skip_measValue cfg (ET.get mv "measObjLdn") = false)
  /\ (In r (ET.findall mv (create_xpath_string self "r" []))
      /\ skip_r cfg (ET.get r "p") = false).
Proof.
  rewrite in_selected. unfold blocks, groups, readings.
  rewrite !filter_In, !negb_true_iff. reflexivity.
Qed.





End Filters.

Lemma row_of_functional (self : XMLProcessor) (t : reading) (x y : Measurement.t) :
  row_of self t = Ok x -> row_of self t = Ok y -> x = y.
Proof. congruence. Qed.




(** ** The orchestrator *)

Lemma flat_map_map {A B C : Type} (g : B -> list C) (h : A -> B) (l : list A) :
  flat_map g (map h l) = flat_map (fun a => g (h a)) l.
Proof. induction l as [|a l IH]; cbn [map flat_map]; [reflexivity | now rewrite IH]. Qed.

Lemma collect_eq (completed : list (result (list Measurement.t))) (acc : list Measurement.t) (w : World) :
  collect completed acc w
  = (acc ++ flat_map rows_of_future completed,
     {| w_log := w_log w ++ flat_map log_of_future completed;
        w_submitted := w_submitted w;
        w_sink := w_sink w |}).
Proof.
  revert acc w. induction completed as [|future rest IH]; intros acc w;
    cbn [collect flat_map].
  - rewrite !app_nil_r. now destruct w.
  - destruct future as [rows|e]; rewrite IH; cbn [rows_of_future log_of_future].
    + now rewrite <- app_assoc.
    + cbn [log w_log w_submitted w_sink app]. now rewrite <- app_assoc.
Qed.

Section Orchestrator.
Variable self : PMParser.
Variable fs : FileSystem.
Variable await_future : string -> ParserConfig -> result (list Measurement.t).
Variable as_completed : list (result (list Measurement.t)) -> list (result (list Measurement.t)).

(** When the files cannot be resolved the run raises that error and leaves
    the world as it was: nothing logged, nothing submitted, no call to the
    output handler. *)
Lemma process_files_resolution_error (w : World) (e : py_exn) :
  _get_files_to_process self fs = Raise e ->
  process_files self fs await_future as_completed w = (Raise e, w).
Proof. unfold process_files. now intros ->. Qed.

Lemma process_files_no_files (w : World) :
  _get_files_to_process self fs = Ok [] ->
  process_files self fs await_future as_completed w
  = (Raise (PMError "No files found to process"), w).
Proof. unfold process_files. now intros ->. Qed.


End Orchestrator.



(** ** Resolution of the input files *)

Section Resolution.
Variable self : PMParser.
Variable fs : FileSystem.

Lemma resolve_single_file (c : ascii) (f : string) :
  single_file (config self) = Some (String c f) ->
  _get_files_to_process self fs
  = if path_exists fs (String c f) then Ok [String c f]
    else Raise (PMError ("File not found: " +:+ String c f)).
Proof.
  unfold _get_files_to_process. intros ->.
  now destruct (path_exists fs (String c f)).
Qed.

Lemma resolve_directory (c : ascii) (d : string) :
  Py.truthy_str (single_file (config self)) = false ->
  directory (config self) = Some (String c d) ->
  _get_files_to_process self fs
  = if path_exists fs (String c d) then
      let* names := listdir fs (String c d) in
      Ok (map (Py.path_join (String c d))
            (List.filter (Re.matches (file_pattern (config self))) names))
    else Raise (PMError ("Directory not found: " +:+ String c d)).
Proof.
  unfold _get_files_to_process. intros Hs ->.
  destruct (single_file (config self)) as [[|c' f']|]; try discriminate Hs;
    now destruct (path_exists fs (String c d)).
Qed.


End Resolution.




(** C9: in directory mode, when no name of the (existing, listable)
    directory matches the pattern, the run raises the [PMError] "No files
    found to process"; in single-file mode, when the path does not exist, it
    raises the [PMError] "File not found: ...".  The two errors differ, and
    in both cases the world is left as it was: the output handler is not
    called. *)
Theorem no_match_and_missing_file_are_distinct_errors
    (in_directory in_file : PMParser) (fs : FileSystem)
    (await_future : string -> ParserConfig -> result (list Measurement.t))
    (as_completed : list (result (list Measurement.t)) -> list (result (list Measurement.t)))
    (w : World) (c : ascii) (d : string) (names : list string)
    (c' : ascii) (f : string) :
  Py.truthy_str (single_file (config in_directory)) = false ->
  directory (config in_directory) = Some (String c d) ->
  path_exists fs (String c d) = true ->
  listdir fs (String c d) = Ok names ->
  (forall name, In name names ->
     Re.matches (file_pattern (config in_directory)) name = false) ->
  single_file (config in_file) = Some (String c' f) ->
  path_exists fs (String c' f) = false ->
  process_files in_directory fs await_future as_completed w
  = (Raise (PMError "No files found to process"), w)
  /\ process_files in_file fs await_future as_completed w
     = (Raise (PMError ("File not found: " +:+ String c' f)), w)
  /\ PMError "No files found to process" <> PMError ("File not found: " +:+ String c' f).
Proof.
  intros Hs Hd Hex Hls Hnone Hf Hmissing. split; [|split].
  - apply process_files_no_files.
    rewrite (resolve_directory in_directory fs c d Hs Hd), Hex, Hls. cbn [bind].
    replace (List.filter (Re.matches (file_pattern (config in_directory))) names)
      with (@nil string); [reflexivity|].
    symmetry. clear -Hnone. induction names as [|name names IH]; [reflexivity|].
    cbn [List.filter]. rewrite (Hnone name (or_introl eq_refl)).
    apply IH. intros n Hn. apply Hnone. now right.
  - apply process_files_resolution_error.
    now rewrite (resolve_single_file in_file fs c' f Hf), Hmissing.
  - discriminate.
Qed.

Lemma no_match_and_missing_file_are_distinct_errors_witness :
  process_files (sample_parser (sample_config None (Some "empty") None None []))
    sample_fs
    (run_process_file (sample_parser (sample_config None (Some "empty") None None []))
       sample_fs)
    (fun futures => futures) empty_world
  = (Raise (PMError "No files found to process"), empty_world)
  /\ process_files (sample_parser (sample_config (Some "missing.xml") None None None []))
       sample_fs
       (run_process_file (sample_parser (sample_config None (Some "empty") None None []))
          sample_fs)
       (fun futures => futures) empty_world
     = (Raise (PMError ("File not found: " +:+ "missing.xml")), empty_world)
  /\ PMError "No files found to process"
     <> PMError ("File not found: " +:+ "missing.xml").
Proof.
  apply (no_match_and_missing_file_are_distinct_errors
           (sample_parser (sample_config None (Some "empty") None None []))
           (sample_parser (sample_config (Some "missing.xml") None None None []))
           sample_fs
           (run_process_file
              (sample_parser (sample_config None (Some "empty") None None [])) sample_fs)
           (fun futures => futures) empty_world
           "e" "mpty" ["notes.txt"] "m" "issing.xml").
  - reflexivity.
  - reflexivity.
  - reflexivity.
  - reflexivity.
  - intros name [<-|[]]. vm_compute. reflexivity.
  - reflexivity.
  - reflexivity.
Defined.

(** ** Matching a file name *)

Section Matching.

Lemma length_append (s w : string) :
  String.length (s +:+ w) = (String.length s + String.length w)%nat.
Proof.
  induction s as [|c s IH]; [reflexivity|].
  change (String c s +:+ w) with (String c (s +:+ w)).
  cbn [String.length]. now rewrite IH.
Qed.





(** A full match is a match. *)
Lemma fullmatches_matches (r : Re.regex) (s : string) :
  Re.fullmatches r s = true -> Re.matches r s = true.
Proof.
  unfold Re.fullmatches, Re.matches.
  now destruct (Re.ends r (true, s)).
Qed.

(** The default pattern is the compiled form of its source text; with the
    anchors of [^A.*\.xml$] the name [Afoo.xml.bak] would not match. *)
Lemma default_pattern_compiles :
  Re.compile DEFAULT_FILE_PATTERN_source = Some DEFAULT_FILE_PATTERN.
Proof. vm_compute. reflexivity. Qed.

Lemma anchored_pattern_rejects_trailing_characters :
  (fun r => Re.matches r "Afoo.xml.bak") <$> Re.compile "^A.*\.xml$" = Some false.
Proof. vm_compute. reflexivity. Qed.

End Matching.




(** ** Two remarks on the hypotheses used above *)

Lemma forallb_false_exists {A : Type} (f : A -> bool) (l : list A) :
  forallb f l = false -> exists x, In x l /\ f x = false.
Proof.
  induction l as [|a l IH]; cbn [forallb]; [discriminate|].
  destruct (f a) eqn:Ha; cbn [andb].
  - intros H. destruct (IH H) as (x & Hx & Hfx). exists x. split; [now right | exact Hfx].
  - intros _. exists a. split; [now left | exact Ha].
Qed.

(** The well-formed documents are exactly those that the extraction
    accepts when no filter is set. *)
Lemma well_formed_iff_unfiltered_extraction (self : XMLProcessor)
    (config : ParserConfig) (fs : FileSystem) (file_path : string)
    (root : ET.Element) :
  parse fs file_path = Ok root ->
  (well_formed self root = true
   <-> exists rows,
         process_file self fs file_path (with_filters config None None []) = Ok rows).
Proof.
  intros Hparse. split.
  - intros Hwf.
    destruct (extract_total self (with_filters config None None []) fs file_path root
                Hparse Hwf) as [rows Hrows].
    exists rows. now apply process_file_Ok.
  - intros [rows Hrows]. apply process_file_Ok in Hrows.
    destruct (well_formed self root) eqn:Hwf; [reflexivity|exfalso].
    unfold well_formed in Hwf.
    apply forallb_false_exists in Hwf as (mi & Hmi & Hbad).
    assert (Hblock : In mi (blocks self (with_filters config None None []) root)).
    { unfold blocks. apply filter_In. split; [exact Hmi | reflexivity]. }
    apply andb_false_iff in Hbad as [Hgran|Hreadings].
    + destruct (ET.find mi (create_xpath_string self "granPeriod" [])) eqn:Hfind;
        [discriminate|].
      destruct (block_without_granPeriod_fails self _ fs file_path root mi
                  Hparse Hblock Hfind) as [e He].
      congruence.
    + apply forallb_false_exists in Hreadings as (mv & Hmv & Hbad).
      apply forallb_false_exists in Hbad as (r & Hr & Hint).
      unfold int_ok in Hint.
      destruct (Py.int (ET.get r "p")) as [n|e0] eqn:Hp; [discriminate|].
      assert (Hsel : In (mi, mv, r)
                       (selected self (with_filters config None None []) root)).
      { apply in_selected. split; [exact Hblock|]. split.
        - unfold groups. apply filter_In. split; [exact Hmv | reflexivity].
        - unfold readings. apply filter_In. split; [exact Hr | reflexivity]. }
      destruct (reading_without_index_fails self _ fs file_path root mi mv r e0
                  Hparse Hsel Hp) as [e He].
      congruence.
Qed.


(** * Further properties of the code *)

(** ** [process_file]: rows, success and failure *)

(** A successful extraction returns one row per selected reading, in the
    order of the document, and the first four fields of each row are read
    from its block, its value group and its reading: [endTime] from the
    first [granPeriod] of the block, [measInfoId] and [measObjLdn] from the
    attributes of the block and of the group, [p] as [int] of the [p]
    attribute. *)
Theorem rows_follow_document_order (self : XMLProcessor) (config : ParserConfig)
    (fs : FileSystem) (file_path : string) (rows : list Measurement.t) :
  process_file self fs file_path config = Ok rows ->
  exists root,
    parse fs file_path = Ok root
    /\ length rows = length (selected self config root)
    /\ Forall2 (fun t row =>
                  let '(mi, mv, r) := t in
                  (exists g,
                     ET.find mi (create_xpath_string self "granPeriod" []) = Some g
                     /\ Measurement.endTime row = ET.get g "endTime")
                  /\ Measurement.measInfoId row = ET.get mi "measInfoId"
                  /\ Measurement.measObjLdn row = ET.get mv "measObjLdn"
                  /\ Py.int (ET.get r "p") = Ok (Measurement.p row))
         (selected self config root) rows.
Proof.
  intros Hrun. apply process_file_Ok in Hrun.
  destruct (extract_rows self config fs file_path rows Hrun) as (root & Hparse & Hrows).
  exists root. split; [exact Hparse|]. split.
  - symmetry. exact (Forall2_length _ _ _ Hrows).
  - eapply Forall2_impl; [exact Hrows|].
    intros [[mi mv] r] row Hrow.
    apply row_of_inv in Hrow as (g & n & Hg & Hn & ->). cbn.
    repeat split; eauto.
Qed.

Lemma rows_follow_document_order_witness :
  exists root,
    parse sample_fs "blocks.xml" = Ok root
    /\ length rows_two_blocks
       = length (selected sample_processor
                   (sample_config (Some "blocks.xml") None None None []) root)
    /\ Forall2 (fun t row =>
                  let '(mi, mv, r) := t in
                  (exists g,
                     ET.find mi (create_xpath_string sample_processor "granPeriod" [])
                     = Some g
                     /\ Measurement.endTime row = ET.get g "endTime")
                  /\ Measurement.measInfoId row = ET.get mi "measInfoId"
                  /\ Measurement.measObjLdn row = ET.get mv "measObjLdn"
                  /\ Py.int (ET.get r "p") = Ok (Measurement.p row))
         (selected sample_processor
            (sample_config (Some "blocks.xml") None None None []) root)
         rows_two_blocks.
Proof.
  apply (rows_follow_document_order sample_processor
           (sample_config (Some "blocks.xml") None None None [])
           sample_fs "blocks.xml").
  vm_compute. reflexivity.
Defined.

(** The extraction succeeds exactly when the file parses, every block that
    is not skipped has a [granPeriod], and every selected reading has an
    index that [int] accepts.  What a skipped block or a skipped reading
    lacks does not matter. *)
Theorem extraction_succeeds_iff (self : XMLProcessor) (config : ParserConfig)
    (fs : FileSystem) (file_path : string) :
  (exists rows, process_file self fs file_path config = Ok rows)
  <-> exists root,
        parse fs file_path = Ok root
        /\ (forall mi, In mi (blocks self config root) ->
              exists g, ET.find mi (create_xpath_string self "granPeriod" []) = Some g)
        /\ (forall mi mv r, In (mi, mv, r) (selected self config root) ->
              exists n, Py.int (ET.get r "p") = Ok n).
Proof.
  split.
  - intros [rows Hrun]. apply process_file_Ok in Hrun.
    destruct (extract_rows self config fs file_path rows Hrun) as (root & Hparse & Hrows).
    exists root. split; [exact Hparse|]. split.
    + intros mi Hmi.
      destruct (ET.find mi (create_xpath_string self "granPeriod" [])) as [g|] eqn:Hfind;
        [eauto|exfalso].
      destruct (block_without_granPeriod_fails self config fs file_path root mi
                  Hparse Hmi Hfind) as [e He].
      congruence.
    + intros mi mv r Hsel.
      destruct (Forall2_in_l _ _ _ _ Hrows Hsel) as (row & _ & Hrow).
      apply row_of_inv in Hrow as (g & n & _ & Hn & _). eauto.
  - intros (root & Hparse & Hgran & Hint).
    destruct (process_file_body self fs file_path config) as [rows|e] eqn:Hbody.
    + exists rows. now apply process_file_Ok.
    + exfalso. rewrite process_file_body_eq, Hparse in Hbody. cbn [bind] in Hbody.
      apply concat_mapM_Raise in Hbody as (mi & Hmi & Hblock).
      destruct (Hgran mi Hmi) as [g Hg].
      unfold block_rows in Hblock. rewrite Hg in Hblock. cbn [get_endTime bind] in Hblock.
      apply concat_mapM_Raise in Hblock as (mv & Hmv & Hgroup).
      apply mapM_Raise in Hgroup as (r & Hr & Hrow).
      assert (Hsel : In (mi, mv, r) (selected self config root))
        by (apply in_selected; auto).
      destruct (Hint mi mv r Hsel) as [n Hn].
      unfold row_r in Hrow. rewrite read_value_total, Hn in Hrow. discriminate.
Qed.

(** Whatever goes wrong, [process_file] raises a [PMError] whose message
    names the file, and there are three ways to fail: the parser raises,
    a block that is not skipped has no [granPeriod], or [int] rejects the
    index of a selected reading. *)
Theorem extraction_fails_in_three_ways (self : XMLProcessor) (config : ParserConfig)
    (fs : FileSystem) (file_path : string) (e : py_exn) :
  process_file self fs file_path config = Raise e ->
  exists cause,
    e = PMError ("Failed to process " +:+ file_path +:+ ": " +:+ exn_str cause)
    /\ (parse fs file_path = Raise cause
        \/ (exists root mi,
              parse fs file_path = Ok root
              /\ In mi (blocks self config root)
              /\ ET.find mi (create_xpath_string self "granPeriod" []) = None
              /\ cause = AttributeError "'NoneType' object has no attribute 'get'")
        \/ (exists root mi mv r,
              parse fs file_path = Ok root
              /\ In (mi, mv, r) (selected self config root)
              /\ Py.int (ET.get r "p") = Raise cause)).
Proof.
  unfold process_file.
  destruct (process_file_body self fs file_path config) as [rows|cause] eqn:Hbody;
    [discriminate|].
  intros [= <-]. exists cause. split; [reflexivity|].
  rewrite process_file_body_eq in Hbody.
  destruct (parse fs file_path) as [root|e0] eqn:Hparse; cbn [bind] in Hbody.
  - right. apply concat_mapM_Raise in Hbody as (mi & Hmi & Hblock).
    unfold block_rows in Hblock.
    destruct (ET.find mi (create_xpath_string self "granPeriod" [])) as [g|] eqn:Hfind;
      cbn [get_endTime bind] in Hblock.
    + right. apply concat_mapM_Raise in Hblock as (mv & Hmv & Hgroup).
      apply mapM_Raise in Hgroup as (r & Hr & Hrow).
      exists root, mi, mv, r. split; [reflexivity|].
      split; [apply in_selected; auto|].
      unfold row_r in Hrow. rewrite read_value_total in Hrow. cbn [bind] in Hrow.
      destruct (Py.int (ET.get r "p")) as [n|e1]; cbn [bind] in Hrow; congruence.
    + left. exists root, mi. injection Hblock as <-. auto.
  - left. congruence.
Qed.

Lemma extraction_fails_in_three_ways_witness :
  exists cause,
    PMError "Failed to process data/Afoo.xml.bak: syntax error: line 1, column 0"
    = PMError ("Failed to process " +:+ "data/Afoo.xml.bak" +:+ ": " +:+ exn_str cause)
    /\ (parse sample_fs "data/Afoo.xml.bak" = Raise cause
        \/ (exists root mi,
              parse sample_fs "data/Afoo.xml.bak" = Ok root
              /\ In mi (blocks sample_processor
                          (sample_config None (Some "data") None None []) root)
              /\ ET.find mi (create_xpath_string sample_processor "granPeriod" []) = None
              /\ cause = AttributeError "'NoneType' object has no attribute 'get'")
        \/ (exists root mi mv r,
              parse sample_fs "data/Afoo.xml.bak" = Ok root
              /\ In (mi, mv, r)
                   (selected sample_processor
                      (sample_config None (Some "data") None None []) root)
              /\ Py.int (ET.get r "p") = Raise cause)).
Proof.
  apply (extraction_fails_in_three_ways sample_processor
           (sample_config None (Some "data") None None [])
           sample_fs "data/Afoo.xml.bak").
  vm_compute. reflexivity.
Defined.

(** ** [process_file]: the filters *)

Lemma concat_mapM_ext {A B : Type} (f g : A -> result (list B)) (l : list A) :
  (forall a, f a = g a) -> concat_mapM f l = concat_mapM g l.
Proof.
  intros Hfg. induction l as [|a l IH]; cbn [concat_mapM]; [reflexivity|].
  now rewrite Hfg, IH.
Qed.

Lemma filter_all {A : Type} (f : A -> bool) (l : list A) :
  (forall a, f a = true) -> List.filter f l = l.
Proof.
  intros Hf. induction l as [|a l IH]; cbn [List.filter]; [reflexivity|].
  now rewrite Hf, IH.
Qed.

(** The configuration reaches the extraction only through its three tests. *)
Lemma process_file_same_tests (self : XMLProcessor) (c1 c2 : ParserConfig)
    (fs : FileSystem) (file_path : string) :
  (forall mi, skip_measInfo c1 mi = skip_measInfo c2 mi) ->
  (forall obj_ldn, skip_measValue c1 obj_ldn = skip_measValue c2 obj_ldn) ->
  (forall p, skip_r c1 p = skip_r c2 p) ->
  process_file self fs file_path c1 = process_file self fs file_path c2.
Proof.
  intros Hmi Hmv Hr. unfold process_file. rewrite !process_file_body_eq.
  destruct (parse fs file_path) as [root|e]; cbn [bind]; [|reflexivity].
  assert (Hreadings : forall mv, readings self c1 mv = readings self c2 mv).
  { intros mv. unfold readings. apply filter_ext. intros r. now rewrite Hr. }
  assert (Hgroups : forall mi, groups self c1 mi = groups self c2 mi).
  { intros mi. unfold groups. apply filter_ext. intros mv. now rewrite Hmv. }
  assert (Hblocks : blocks self c1 root = blocks self c2 root).
  { unfold blocks. apply filter_ext. intros mi. now rewrite Hmi. }
  rewrite Hblocks.
  rewrite (concat_mapM_ext (block_rows self c1) (block_rows self c2)); [reflexivity|].
  intros mi. unfold block_rows. rewrite Hgroups.
  destruct (get_endTime _) as [endTime|e]; cbn [bind]; [|reflexivity].
  apply concat_mapM_ext. intros mv. unfold group_rows. now rewrite Hreadings.
Qed.

(** A filter value that Python takes for false is no filter: with an empty
    [measInfoId], a [p_value] of 0 (or none) and an empty object list, the
    extraction is the extraction without filters, and every reading of every
    value group of every block is selected. *)
Theorem falsy_filters_select_everything (self : XMLProcessor) (config : ParserConfig)
    (fs : FileSystem) (file_path : string) :
  Py.truthy_str (measInfoId config) = false ->
  Py.truthy_int (p_value config) = false ->
  objLdn_list config = [] ->
  process_file self fs file_path config
  = process_file self fs file_path (with_filters config None None [])
  /\ forall root,
       selected self config root
       = flat_map (fun mi =>
           flat_map (fun mv =>
               map (fun r => (mi, mv, r))
                 (ET.findall mv (create_xpath_string self "r" [])))
             (ET.findall mi (create_xpath_string self "measValue" [])))
           (ET.findall root (create_xpath_string self "measInfo" [])).
Proof.
  intros Hid Hp Hldn.
  assert (Hmi : forall mi, skip_measInfo config mi = false)
    by (intros mi; unfold skip_measInfo; now rewrite Hid).
  assert (Hmv : forall obj_ldn, skip_measValue config obj_ldn = false)
    by (intros o; unfold skip_measValue; now rewrite Hldn).
  assert (Hr : forall p, skip_r config p = false)
    by (intros p; unfold skip_r; now rewrite Hp).
  split.
  - apply process_file_same_tests; intros x; [rewrite Hmi | rewrite Hmv | rewrite Hr];
      reflexivity.
  - intros root. unfold selected, blocks, groups, readings.
    rewrite filter_all by (intros mi; now rewrite Hmi).
    apply flat_map_ext. intros mi.
    rewrite filter_all by (intros mv; now rewrite Hmv).
    apply flat_map_ext. intros mv.
    now rewrite filter_all by (intros r; now rewrite Hr).
Qed.

Lemma falsy_filters_select_everything_witness :
  process_file sample_processor sample_fs "blocks.xml"
    (sample_config (Some "blocks.xml") None (Some EmptyString) (Some 0) [])
  = process_file sample_processor sample_fs "blocks.xml"
      (with_filters
         (sample_config (Some "blocks.xml") None (Some EmptyString) (Some 0) [])
         None None [])
  /\ forall root,
       selected sample_processor
         (sample_config (Some "blocks.xml") None (Some EmptyString) (Some 0) []) root
       = flat_map (fun mi =>
           flat_map (fun mv =>
               map (fun r => (mi, mv, r))
                 (ET.findall mv (create_xpath_string sample_processor "r" [])))
             (ET.findall mi (create_xpath_string sample_processor "measValue" [])))
           (ET.findall root (create_xpath_string sample_processor "measInfo" [])).
Proof.
  apply (falsy_filters_select_everything sample_processor
           (sample_config (Some "blocks.xml") None (Some EmptyString) (Some 0) [])
           sample_fs "blocks.xml").
  - reflexivity.
  - reflexivity.
  - reflexivity.
Defined.

(** When a filter is active its mark is on every row returned: with a
    non-empty [measInfoId] every row carries that id, and with a non-empty
    object list the [measObjLdn] of every row is a member of the list (so a
    value group without that attribute yields no row). *)
Theorem active_filters_mark_every_row (self : XMLProcessor) (config : ParserConfig)
    (fs : FileSystem) (file_path : string) (rows : list Measurement.t) :
  process_file self fs file_path config = Ok rows ->
  (Py.truthy_str (measInfoId config) = true ->
   forall row, In row rows -> Measurement.measInfoId row = measInfoId config)
  /\ (objLdn_list config <> [] ->
      forall row, In row rows ->
      exists s, Measurement.measObjLdn row = Some s /\ In s (objLdn_list config)).
Proof.
  intros Hrun. apply process_file_Ok in Hrun.
  destruct (extract_rows self config fs file_path rows Hrun) as (root & Hparse & Hrows).
  split.
  - intros Hid row Hin.
    destruct (Forall2_in_r _ _ _ _ Hrows Hin) as ([[mi mv] r] & Hsel & Hrow).
    apply in_selected_full in Hsel as ((_ & Hskip) & _ & _).
    apply row_of_inv in Hrow as (g & n & _ & _ & ->). cbn [Measurement.measInfoId].
    unfold skip_measInfo in Hskip. rewrite Hid in Hskip. cbn [andb] in Hskip.
    now apply negb_false_iff, bool_decide_eq_true in Hskip.
  - intros Hldn row Hin.
    destruct (Forall2_in_r _ _ _ _ Hrows Hin) as ([[mi mv] r] & Hsel & Hrow).
    apply in_selected_full in Hsel as (_ & (_ & Hskip) & _).
    apply row_of_inv in Hrow as (g & n & _ & _ & ->). cbn [Measurement.measObjLdn].
    unfold skip_measValue in Hskip.
    destruct (objLdn_list config) as [|x l] eqn:El; [congruence|].
    cbn [Py.truthy_list andb] in Hskip. apply negb_false_iff in Hskip.
    destruct (ET.get mv "measObjLdn") as [s|]; [|discriminate].
    exists s. split; [reflexivity|].
    apply existsb_exists in Hskip as (y & Hy & Heq).
    apply String.eqb_eq in Heq. now subst y.
Qed.

Lemma active_filters_mark_every_row_witness :
  (Py.truthy_str
     (measInfoId (sample_config (Some "blocks.xml") None (Some "C") None ["Cell2"]))
   = true ->
   forall row,
     In row [ sample_row "2024-01-01T00:15:00" "C" "Cell2" 10 float_42
                (Some "succTCHSeizures");
              sample_row "2024-01-01T00:15:00" "C" "Cell2" 11 (VText (Some "n/a"))
                (Some "dropTCH") ] ->
     Measurement.measInfoId row
     = measInfoId (sample_config (Some "blocks.xml") None (Some "C") None ["Cell2"]))
  /\ (objLdn_list (sample_config (Some "blocks.xml") None (Some "C") None ["Cell2"])
      <> [] ->
      forall row,
        In row [ sample_row "2024-01-01T00:15:00" "C" "Cell2" 10 float_42
                   (Some "succTCHSeizures");
                 sample_row "2024-01-01T00:15:00" "C" "Cell2" 11 (VText (Some "n/a"))
                   (Some "dropTCH") ] ->
        exists s,
          Measurement.measObjLdn row = Some s
          /\ In s (objLdn_list
                     (sample_config (Some "blocks.xml") None (Some "C") None ["Cell2"]))).
Proof.
  apply (active_filters_mark_every_row sample_processor
           (sample_config (Some "blocks.xml") None (Some "C") None ["Cell2"])
           sample_fs "blocks.xml").
  vm_compute. reflexivity.
Defined.

Section Sublists.

Lemma sublist_filter_weaker {A : Type} (f g : A -> bool) (l : list A) :
  (forall a, f a = true -> g a = true) ->
  sublist (List.filter f l) (List.filter g l).
Proof.
  intros Hfg. induction l as [|a l IH]; cbn [List.filter]; [constructor|].
  destruct (f a) eqn:Hf.
  - rewrite (Hfg a Hf). now apply sublist_skip.
  - destruct (g a); [now apply sublist_cons | exact IH].
Qed.

Lemma sublist_flat_map {A B : Type} (f g : A -> list B) (l1 l2 : list A) :
  (forall a, sublist (f a) (g a)) ->
  sublist l1 l2 -> sublist (flat_map f l1) (flat_map g l2).
Proof.
  intros Hfg. induction 1 as [|x l1 l2 _ IH|x l1 l2 _ IH]; cbn [flat_map].
  - constructor.
  - apply sublist_app; [apply Hfg | exact IH].
  - now apply sublist_inserts_l.
Qed.

Lemma sublist_map {A B : Type} (h : A -> B) (l1 l2 : list A) :
  sublist l1 l2 -> sublist (map h l1) (map h l2).
Proof.
  induction 1 as [|x l1 l2 _ IH|x l1 l2 _ IH]; cbn [map].
  - constructor.
  - now apply sublist_skip.
  - now apply sublist_cons.
Qed.

Lemma sublist_Forall2 {A B : Type} (R : A -> B -> Prop) (l1 l2 : list A) :
  (forall a x y, R a x -> R a y -> x = y) ->
  sublist l1 l2 ->
  forall ys1 ys2, Forall2 R l1 ys1 -> Forall2 R l2 ys2 -> sublist ys1 ys2.
Proof.
  intros Hfun. induction 1 as [|x l1 l2 _ IH|x l1 l2 _ IH]; intros ys1 ys2 H1 H2.
  - inversion H1; subst. apply sublist_nil_l.
  - inversion H1 as [|? y1 ? ys1' Hy1 H1']; subst.
    inversion H2 as [|? y2 ? ys2' Hy2 H2']; subst.
    rewrite (Hfun x y1 y2 Hy1 Hy2). apply sublist_skip. now apply IH.
  - inversion H2 as [|? y2 ? ys2' Hy2 H2']; subst.
    apply sublist_cons. now apply IH.
Qed.

(** A stricter configuration selects a subsequence of the readings. *)
Lemma selected_sublist (self : XMLProcessor) (c1 c2 : ParserConfig)
    (root : ET.Element) :
  (forall mi, skip_measInfo c2 mi = true -> skip_measInfo c1 mi = true) ->
  (forall o, skip_measValue c2 o = true -> skip_measValue c1 o = true) ->
  (forall p, skip_r c2 p = true -> skip_r c1 p = true) ->
  sublist (selected self c1 root) (selected self c2 root).
Proof.
  intros Hmi Hmv Hr.
  assert (Himp : forall b1 b2 : bool, (b2 = true -> b1 = true) ->
                   negb b1 = true -> negb b2 = true)
    by (intros [] []; intuition discriminate).
  unfold selected. apply sublist_flat_map.
  - intros mi. apply sublist_flat_map.
    + intros mv. apply sublist_map. unfold readings.
      apply sublist_filter_weaker. intros r. apply Himp, Hr.
    + unfold groups. apply sublist_filter_weaker. intros mv. apply Himp, Hmv.
  - unfold blocks. apply sublist_filter_weaker. intros mi. apply Himp, Hmi.
Qed.

End Sublists.

(** Filters only remove rows: when the extraction without filters succeeds,
    the extraction with any filters succeeds too, and its rows are a
    subsequence of the unfiltered rows (same rows, same order, nothing
    added). *)
Theorem filtered_rows_are_a_subsequence (self : XMLProcessor) (config : ParserConfig)
    (fs : FileSystem) (file_path : string) (all_rows : list Measurement.t) :
  process_file self fs file_path (with_filters config None None []) = Ok all_rows ->
  exists rows,
    process_file self fs file_path config = Ok rows /\ sublist rows all_rows.
Proof.
  intros Hall.
  assert (Hall' := Hall). apply process_file_Ok in Hall'.
  destruct (extract_rows self _ fs file_path all_rows Hall') as (root & Hparse & HFall).
  assert (Hwf : well_formed self root = true).
  { apply (well_formed_iff_unfiltered_extraction self config fs file_path root Hparse).
    eauto. }
  destruct (extract_total self config fs file_path root Hparse Hwf) as [rows Hrows].
  exists rows. split; [now apply process_file_Ok|].
  destruct (extract_rows self config fs file_path rows Hrows) as (root' & Hparse' & HF).
  rewrite Hparse in Hparse'. injection Hparse' as <-.
  apply (sublist_Forall2 (fun t row => row_of self t = Ok row)
           (selected self config root)
           (selected self (with_filters config None None []) root)).
  - intros t x y. apply row_of_functional.
  - apply selected_sublist; intros x H; discriminate H.
  - exact HF.
  - exact HFall.
Qed.

Lemma filtered_rows_are_a_subsequence_witness :
  exists rows,
    process_file sample_processor sample_fs "blocks.xml"
      (sample_config (Some "blocks.xml") None (Some "C") (Some 10) ["Cell2"]) = Ok rows
    /\ sublist rows rows_two_blocks.
Proof.
  apply (filtered_rows_are_a_subsequence sample_processor
           (sample_config (Some "blocks.xml") None (Some "C") (Some 10) ["Cell2"])
           sample_fs "blocks.xml").
  vm_compute. reflexivity.
Defined.

(** ** [process_files]: the aggregate, the log and failed runs *)

Lemma length_flat_map_sum {A B : Type} (f : A -> list B) (l : list A) :
  length (flat_map f l) = list_sum (map (fun a => length (f a)) l).
Proof.
  induction l as [|a l IH]; cbn [flat_map map list_sum]; [reflexivity|].
  now rewrite length_app, IH.
Qed.

Lemma flat_map_segment {A B : Type} (f : A -> list B) (l : list A) (a : A) :
  In a l -> exists before after, flat_map f l = before ++ f a ++ after.
Proof.
  induction l as [|x l IH]; intros Hin; [destruct Hin|].
  cbn [flat_map]. destruct Hin as [->|Hin].
  - exists [], (flat_map f l). reflexivity.
  - destruct (IH Hin) as (before & after & ->).
    exists (f x ++ before), after. now rewrite <- app_assoc.
Qed.

Section Runs.
Variable self : PMParser.
Variable fs : FileSystem.
Variable await_future : string -> ParserConfig -> result (list Measurement.t).
Variable as_completed : list (result (list Measurement.t)) -> list (result (list Measurement.t)).

(** What a run that returns has done. *)
Lemma process_files_Ok_inv (w w' : World) (results : list Measurement.t) :
  process_files self fs await_future as_completed w = (Ok results, w') ->
  exists files,
    _get_files_to_process self fs = Ok files
    /\ files <> []
    /\ 0 < num_workers (config self)
    /\ results
       = flat_map rows_of_future
           (as_completed (map (fun file => await_future file (config self)) files))
    /\ w_log w'
       = w_log w
         ++ ["Processing " +:+ Py.str (Z.of_nat (length files)) +:+ " files with "
             +:+ Py.str (num_workers (config self)) +:+ " workers"]
         ++ flat_map log_of_future
              (as_completed (map (fun file => await_future file (config self)) files)).
Proof.
  unfold process_files.
  destruct (_get_files_to_process self fs) as [files|e]; [|discriminate].
  destruct files as [|file files]; [discriminate|].
  destruct (Z.leb_spec (num_workers (config self)) 0) as [|Hw]; [discriminate|].
  rewrite collect_eq. cbn [app]. intros [= <- <-].
  exists (file :: files). repeat split; try discriminate; try assumption.
  destruct (output_handler self); cbn [write log submit w_log]; now rewrite <- app_assoc.
Qed.

End Runs.

(** The aggregate has as many rows as the successful files have together:
    nothing is lost, duplicated or added when the results are merged. *)
Theorem aggregate_count_is_sum_of_file_counts (self : PMParser) (fs : FileSystem)
    (await_future : string -> ParserConfig -> result (list Measurement.t))
    (as_completed : list (result (list Measurement.t)) -> list (result (list Measurement.t)))
    (w w' : World) (files : list string) (results : list Measurement.t) :
  _get_files_to_process self fs = Ok files ->
  Permutation
    (as_completed (map (fun file => await_future file (config self)) files))
    (map (fun file => await_future file (config self)) files) ->
  process_files self fs await_future as_completed w = (Ok results, w') ->
  length results
  = list_sum
      (map (fun file => length (rows_of_future (await_future file (config self)))) files).
Proof.
  intros Hfiles Hperm Hrun.
  destruct (process_files_Ok_inv self fs await_future as_completed w w' results Hrun)
    as (files' & Hfiles' & _ & _ & -> & _).
  rewrite Hfiles in Hfiles'. injection Hfiles' as <-.
  rewrite (Permutation_length (Permutation_flat_map rows_of_future Hperm)).
  now rewrite flat_map_map, length_flat_map_sum.
Qed.

Lemma aggregate_count_is_sum_of_file_counts_witness :
  length [ sample_row "2024-01-01T00:00:00" "A" "Cell1" 10
             (VFloat (S754_finite false 7070651414971679 (-51)))
             (Some "attTCHSeizures");
           sample_row "2024-01-01T00:00:00" "A" "Cell1" 11 (VText (Some "n/a")) None;
           sample_row "2024-01-01T00:00:00" "A" "Cell1" 10 float_42
             (Some "attTCHSeizures") ]
  = list_sum
      (map (fun file =>
              length
                (rows_of_future
                   (run_process_file
                      (sample_parser (sample_config None (Some "data") None None []))
                      sample_fs file
                      (config
                         (sample_parser (sample_config None (Some "data") None None []))))))
         ["data/A1.xml"; "data/Afoo.xml.bak"; "data/A2.xml"]).
Proof.
  apply (aggregate_count_is_sum_of_file_counts
           (sample_parser (sample_config None (Some "data") None None []))
           sample_fs
           (run_process_file
              (sample_parser (sample_config None (Some "data") None None [])) sample_fs)
           (@rev _) empty_world
           {| w_log :=
                ["Processing 3 files with 4 workers";
                 "Error processing file: Failed to process data/Afoo.xml.bak: syntax error: line 1, column 0"];
              w_submitted := ["data/A1.xml"; "data/Afoo.xml.bak"; "data/A2.xml"];
              w_sink :=
                [("out.csv",
                  [ sample_row "2024-01-01T00:00:00" "A" "Cell1" 10
                      (VFloat (S754_finite false 7070651414971679 (-51)))
                      (Some "attTCHSeizures");
                    sample_row "2024-01-01T00:00:00" "A" "Cell1" 11
                      (VText (Some "n/a")) None;
                    sample_row "2024-01-01T00:00:00" "A" "Cell1" 10 float_42
                      (Some "attTCHSeizures") ])] |}
           ["data/A1.xml"; "data/Afoo.xml.bak"; "data/A2.xml"]).
  - vm_compute. reflexivity.
  - apply Permutation_sym, Permutation_rev.
  - vm_compute. reflexivity.
Defined.

(** The rows of one file stay together and in the order the extraction
    gave them: the result of every successful file is a contiguous segment
    of the aggregate, whatever the order of completion. *)
Theorem rows_of_a_file_stay_together (self : PMParser) (fs : FileSystem)
    (await_future : string -> ParserConfig -> result (list Measurement.t))
    (as_completed : list (result (list Measurement.t)) -> list (result (list Measurement.t)))
    (w w' : World) (files : list string) (results : list Measurement.t)
    (file : string) (rows : list Measurement.t) :
  _get_files_to_process self fs = Ok files ->
  Permutation
    (as_completed (map (fun file => await_future file (config self)) files))
    (map (fun file => await_future file (config self)) files) ->
  process_files self fs await_future as_completed w = (Ok results, w') ->
  In file files ->
  await_future file (config self) = Ok rows ->
  exists before after, results = before ++ rows ++ after.
Proof.
  intros Hfiles Hperm Hrun Hin Hok.
  destruct (process_files_Ok_inv self fs await_future as_completed w w' results Hrun)
    as (files' & Hfiles' & _ & _ & -> & _).
  rewrite Hfiles in Hfiles'. injection Hfiles' as <-.
  assert (Hfut : In (Ok rows)
                   (as_completed
                      (map (fun file => await_future file (config self)) files))).
  { apply (Permutation_in _ (Permutation_sym Hperm)).
    apply in_map_iff. exists file. auto. }
  exact (flat_map_segment rows_of_future _ (Ok rows) Hfut).
Qed.

Lemma rows_of_a_file_stay_together_witness :
  exists before after,
    [ sample_row "2024-01-01T00:00:00" "A" "Cell1" 10
        (VFloat (S754_finite false 7070651414971679 (-51))) (Some "attTCHSeizures");
      sample_row "2024-01-01T00:00:00" "A" "Cell1" 11 (VText (Some "n/a")) None;
      sample_row "2024-01-01T00:00:00" "A" "Cell1" 10 float_42 (Some "attTCHSeizures") ]
    = before
      ++ [ sample_row "2024-01-01T00:00:00" "A" "Cell1" 10
             (VFloat (S754_finite false 7070651414971679 (-51)))
             (Some "attTCHSeizures");
           sample_row "2024-01-01T00:00:00" "A" "Cell1" 11 (VText (Some "n/a")) None ]
      ++ after.
Proof.
  apply (rows_of_a_file_stay_together
           (sample_parser (sample_config None (Some "data") None None []))
           sample_fs
           (run_process_file
              (sample_parser (sample_config None (Some "data") None None [])) sample_fs)
           (@rev _) empty_world
           {| w_log :=
                ["Processing 3 files with 4 workers";
                 "Error processing file: Failed to process data/Afoo.xml.bak: syntax error: line 1, column 0"];
              w_submitted := ["data/A1.xml"; "data/Afoo.xml.bak"; "data/A2.xml"];
              w_sink :=
                [("out.csv",
                  [ sample_row "2024-01-01T00:00:00" "A" "Cell1" 10
                      (VFloat (S754_finite false 7070651414971679 (-51)))
                      (Some "attTCHSeizures");
                    sample_row "2024-01-01T00:00:00" "A" "Cell1" 11
                      (VText (Some "n/a")) None;
                    sample_row "2024-01-01T00:00:00" "A" "Cell1" 10 float_42
                      (Some "attTCHSeizures") ])] |}
           ["data/A1.xml"; "data/Afoo.xml.bak"; "data/A2.xml"]
           _ "data/A2.xml").
  - vm_compute. reflexivity.
  - apply Permutation_sym, Permutation_rev.
  - vm_compute. reflexivity.
  - vm_compute. auto.
  - vm_compute. reflexivity.
Defined.



(** A run that returns has logged one line that announces the number of
    files and the pool width, and then exactly one error line for each file
    whose future failed, with the message of its exception. *)
Theorem every_failed_file_is_logged_once (self : PMParser) (fs : FileSystem)
    (await_future : string -> ParserConfig -> result (list Measurement.t))
    (as_completed : list (result (list Measurement.t)) -> list (result (list Measurement.t)))
    (w w' : World) (files : list string) (results : list Measurement.t) :
  _get_files_to_process self fs = Ok files ->
  Permutation
    (as_completed (map (fun file => await_future file (config self)) files))
    (map (fun file => await_future file (config self)) files) ->
  process_files self fs await_future as_completed w = (Ok results, w') ->
  exists errors,
    w_log w'
    = w_log w
      ++ ["Processing " +:+ Py.str (Z.of_nat (length files)) +:+ " files with "
          +:+ Py.str (num_workers (config self)) +:+ " workers"]
      ++ errors
    /\ Permutation errors
         (flat_map (fun file => log_of_future (await_future file (config self))) files).
Proof.
  intros Hfiles Hperm Hrun.
  destruct (process_files_Ok_inv self fs await_future as_completed w w' results Hrun)
    as (files' & Hfiles' & _ & _ & _ & Hlog).
  rewrite Hfiles in Hfiles'. injection Hfiles' as <-.
  eexists. split; [exact Hlog|].
  rewrite <- (flat_map_map log_of_future (fun file => await_future file (config self))).
  now apply Permutation_flat_map.
Qed.

Lemma every_failed_file_is_logged_once_witness :
  exists errors,
    ["Processing 3 files with 4 workers";
     "Error processing file: Failed to process data/Afoo.xml.bak: syntax error: line 1, column 0"]
    = w_log empty_world
      ++ ["Processing " +:+ Py.str (Z.of_nat (length ["data/A1.xml"; "data/Afoo.xml.bak";
                                                       "data/A2.xml"]))
          +:+ " files with "
          +:+ Py.str
                (num_workers
                   (config (sample_parser (sample_config None (Some "data") None None []))))
          +:+ " workers"]
      ++ errors
    /\ Permutation errors
         (flat_map
            (fun file =>
               log_of_future
                 (run_process_file
                    (sample_parser (sample_config None (Some "data") None None []))
                    sample_fs file
                    (config (sample_parser (sample_config None (Some "data") None None [])))))
            ["data/A1.xml"; "data/Afoo.xml.bak"; "data/A2.xml"]).
Proof.
  apply (every_failed_file_is_logged_once
           (sample_parser (sample_config None (Some "data") None None []))
           sample_fs
           (run_process_file
              (sample_parser (sample_config None (Some "data") None None [])) sample_fs)
           (@rev _) empty_world
           {| w_log :=
                ["Processing 3 files with 4 workers";
                 "Error processing file: Failed to process data/Afoo.xml.bak: syntax error: line 1, column 0"];
              w_submitted := ["data/A1.xml"; "data/Afoo.xml.bak"; "data/A2.xml"];
              w_sink :=
                [("out.csv",
                  [ sample_row "2024-01-01T00:00:00" "A" "Cell1" 10
                      (VFloat (S754_finite false 7070651414971679 (-51)))
                      (Some "attTCHSeizures");
                    sample_row "2024-01-01T00:00:00" "A" "Cell1" 11
                      (VText (Some "n/a")) None;
                    sample_row "2024-01-01T00:00:00" "A" "Cell1" 10 float_42
                      (Some "attTCHSeizures") ])] |}
           ["data/A1.xml"; "data/Afoo.xml.bak"; "data/A2.xml"]
           [ sample_row "2024-01-01T00:00:00" "A" "Cell1" 10
               (VFloat (S754_finite false 7070651414971679 (-51)))
               (Some "attTCHSeizures");
             sample_row "2024-01-01T00:00:00" "A" "Cell1" 11 (VText (Some "n/a")) None;
             sample_row "2024-01-01T00:00:00" "A" "Cell1" 10 float_42
               (Some "attTCHSeizures") ]).
  - vm_compute. reflexivity.
  - apply Permutation_sym, Permutation_rev.
  - vm_compute. reflexivity.
Defined.



(** ** The default file pattern *)

Section DefaultPattern.

Lemma matches_iff (r : Re.regex) (s : string) :
  Re.matches r s = true <-> exists q, In q (Re.ends r (true, s)).
Proof.
  unfold Re.matches. destruct (Re.ends r (true, s)) as [|q l].
  - split; [discriminate | intros [q []]].
  - split; [intros _; exists q; now left | reflexivity].
Qed.

Lemma ends_Chr (c : ascii) (b : bool) (s : string) (q : Re.position) :
  In q (Re.ends (Re.Chr c) (b, s)) <-> exists t, s = String c t /\ q = (false, t).
Proof.
  cbn [Re.ends snd]. destruct s as [|c' t].
  - split; [intros [] | intros (t & Hs & _); discriminate Hs].
  - destruct (Ascii.eqb_spec c c') as [<-|Hne].
    + split.
      * intros [<-|[]]. eauto.
      * intros (t' & [= <-] & ->). now left.
    + split; [intros [] | intros (t' & [= Hc _] & _); congruence].
Qed.

Lemma ends_lit (w : string) (b : bool) (s : string) (q : Re.position) :
  w <> EmptyString ->
  (In q (Re.ends (Re.lit w) (b, s)) <-> exists v, s = w +:+ v /\ q = (false, v)).
Proof.
  revert b s. induction w as [|c w IH]; intros b s Hw; [congruence|].
  destruct w as [|c' w'].
  - cbn [Re.lit]. rewrite ends_Chr. reflexivity.
  - change (Re.lit (String c (String c' w')))
      with (Re.Cat (Re.Chr c) (Re.lit (String c' w'))).
    cbn [Re.ends]. rewrite in_flat_map. split.
    + intros ([b1 t1] & H1 & H2). apply ends_Chr in H1 as (t & -> & [= -> ->]).
      apply IH in H2 as (v & -> & ->); [|discriminate]. exists v. split; reflexivity.
    + intros (v & -> & ->). exists (false, String c' w' +:+ v). split.
      * apply ends_Chr. exists (String c' w' +:+ v). split; reflexivity.
      * apply IH; [discriminate|]. eauto.
Qed.

(** [.*] reads any number of characters up to the first newline. *)
Lemma star_dot_ends (fuel : nat) (b b' : bool) (s t : string) :
  In (b', t) (Re.star_ends (Re.ends Re.Dot) fuel (b, s)) <->
  exists u,
    s = u +:+ t /\ has_newline u = false /\ (String.length u <= fuel)%nat
    /\ b' = match u with EmptyString => b | String _ _ => false end.
Proof.
  revert b s. induction fuel as [|fuel IH]; intros b s.
  - cbn [Re.star_ends]. split.
    + intros [[= <- <-]|[]]. exists EmptyString. repeat split. cbn. lia.
    + intros (u & -> & _ & Hlen & ->). destruct u; [now left | cbn in Hlen; lia].
  - cbn [Re.star_ends]. split.
    + intros [[= <- <-]|Hin].
      * exists EmptyString. repeat split. cbn. lia.
      * apply in_flat_map in Hin as ([b1 t1] & H1 & H2).
        apply filter_In in H1 as [H1 _]. cbn [Re.ends snd] in H1.
        destruct s as [|c s']; [destruct H1|].
        destruct (Ascii.eqb c Re.newline) eqn:Hc; [destruct H1|].
        destruct H1 as [[= <- <-]|[]].
        apply IH in H2 as (u & -> & Hnl & Hlen & Hb).
        exists (String c u). split; [reflexivity|]. split.
        { unfold has_newline in *. cbn [list_ascii_of_string existsb].
          rewrite Ascii.eqb_sym, Hc. exact Hnl. }
        split; [cbn [String.length]; lia|]. now destruct u.
    + intros (u & -> & Hnl & Hlen & ->). destruct u as [|c u]; [now left|]. right.
      unfold has_newline in Hnl. cbn [list_ascii_of_string existsb] in Hnl.
      apply orb_false_iff in Hnl as [Hc Hnl]. rewrite Ascii.eqb_sym in Hc.
      change (String c u +:+ t) with (String c (u +:+ t)).
      apply in_flat_map. exists (false, u +:+ t). split.
      * apply filter_In. split.
        -- cbn [Re.ends snd]. rewrite Hc. now left.
        -- cbn [snd String.length]. apply Nat.ltb_lt. lia.
      * apply IH. exists u. split; [reflexivity|]. split; [exact Hnl|].
        split; [cbn [String.length] in Hlen; lia|]. now destruct u.
Qed.

End DefaultPattern.

(** The default pattern accepts exactly the names that begin with [A] and
    have [.xml] somewhere after it with no newline in between; what follows
    [.xml] is not looked at. *)
Theorem default_pattern_accepts (name : string) :
  Re.matches DEFAULT_FILE_PATTERN name = true
  <-> exists u v,
        name = "A" +:+ u +:+ ".xml" +:+ v /\ has_newline u = false.
Proof.
  rewrite matches_iff. unfold DEFAULT_FILE_PATTERN. split.
  - intros (q & Hq). cbn [Re.ends] in Hq.
    apply in_flat_map in Hq as ([b1 t1] & H1 & Hq).
    apply ends_Chr in H1 as (t & -> & [= -> ->]).
    apply in_flat_map in Hq as ([b2 t2] & H2 & Hq).
    cbn [snd] in H2. apply star_dot_ends in H2 as (u & -> & Hnl & _ & _).
    apply ends_lit in Hq as (v & -> & _); [|discriminate].
    exists u, v. split; [reflexivity | exact Hnl].
  - intros (u & v & -> & Hnl). exists (false, v). cbn [Re.ends].
    apply in_flat_map. exists (false, u +:+ ".xml" +:+ v). split.
    + apply ends_Chr. exists (u +:+ ".xml" +:+ v). split; reflexivity.
    + apply in_flat_map. exists (false, ".xml" +:+ v). split.
      * cbn [snd]. apply star_dot_ends. exists u. split; [reflexivity|].
        split; [exact Hnl|]. split; [rewrite length_append; lia | now destruct u].
      * apply ends_lit; [discriminate|]. eauto.
Qed.

(** ** The path built by [create_xpath_string] *)




(** ** The output handlers and the command line *)

Lemma bind_keyword_Ok (cls param : string) (kwargs : list (string * option string))
    (value : option string) :
  bind_keyword cls param kwargs = Ok value ->
  forall key v, In (key, v) kwargs -> key = param.
Proof.
  revert value. induction kwargs as [|[k v0] rest IH]; intros value H key v Hin;
    [destruct Hin|].
  cbn [bind_keyword] in H. destruct (String.eqb_spec k param) as [->|Hne];
    [|discriminate].
  destruct (bind_keyword cls param rest) as [x|e] eqn:Hrest; cbn [bind] in H;
    [|discriminate].
  destruct Hin as [[= <- <-]|Hin]; [reflexivity | exact (IH x eq_refl key v Hin)].
Qed.

Lemma str_or_not_empty (x : option string) (fallback : string) :
  fallback <> EmptyString -> str_or x fallback <> EmptyString.
Proof. destruct x as [[|c s]|]; cbn; intros H; congruence. Qed.

(** What the factory returns: a handler of the class named by the type
    written in any letter case, never with an empty target, and only when
    every keyword argument is the one parameter of that class
    ([db_file] for SQLite, [filename] for the others).  Only the SQLite
    handler touches a database when it is created.  Any other type is a
    [ValueError] that quotes the type as it was written. *)
Theorem factory_returns_handler_of_named_type (now : string)
    (create_tables : string -> option py_exn) (output_type : string)
    (kwargs : list (string * option string)) :
  (forall handler tables,
     create now create_tables output_type kwargs = Ok (handler, tables) ->
     handler_target handler <> EmptyString
     /\ ((str_lower output_type = "excel"
          /\ handler = ExcelOutputHandler (handler_target handler) /\ tables = []
          /\ forall key v, In (key, v) kwargs -> key = "filename")
         \/ (str_lower output_type = "sqlite"
             /\ handler = SQLiteOutputHandler (handler_target handler)
             /\ tables = [handler_target handler]
             /\ create_tables (handler_target handler) = None
             /\ forall key v, In (key, v) kwargs -> key = "db_file")
         \/ (str_lower output_type = "csv"
             /\ handler = CSVOutputHandler (handler_target handler) /\ tables = []
             /\ forall key v, In (key, v) kwargs -> key = "filename")))
  /\ (str_lower output_type <> "excel" ->
      str_lower output_type <> "sqlite" ->
      str_lower output_type <> "csv" ->
      create now create_tables output_type kwargs
      = Raise (ValueError ("Unsupported output type: " +:+ output_type))).
Proof.
  unfold create. split.
  - intros handler tables.
    destruct (String.eqb_spec (str_lower output_type) "excel") as [He|_].
    { destruct (bind_keyword _ _ kwargs) as [filename|e] eqn:Hb; cbn [bind];
        [|discriminate].
      intros [= <- <-]. cbn [handler_target]. split.
      - apply str_or_not_empty. discriminate.
      - left. repeat split; try assumption. exact (bind_keyword_Ok _ _ _ _ Hb). }
    destruct (String.eqb_spec (str_lower output_type) "sqlite") as [Hs|_].
    { destruct (bind_keyword _ _ kwargs) as [db_file|e] eqn:Hb; cbn [bind];
        [|discriminate].
      destruct (create_tables _) eqn:Hct; [discriminate|].
      intros [= <- <-]. cbn [handler_target]. split.
      - apply str_or_not_empty. discriminate.
      - right. left. repeat split; try assumption. exact (bind_keyword_Ok _ _ _ _ Hb). }
    destruct (String.eqb_spec (str_lower output_type) "csv") as [Hc|_]; [|discriminate].
    destruct (bind_keyword _ _ kwargs) as [filename|e] eqn:Hb; cbn [bind];
      [|discriminate].
    intros [= <- <-]. cbn [handler_target]. split.
    + apply str_or_not_empty. discriminate.
    + right. right. repeat split; try assumption. exact (bind_keyword_Ok _ _ _ _ Hb).
  - intros He Hs Hc.
    destruct (String.eqb_spec (str_lower output_type) "excel"); [contradiction|].
    destruct (String.eqb_spec (str_lower output_type) "sqlite"); [contradiction|].
    destruct (String.eqb_spec (str_lower output_type) "csv"); [contradiction|].
    reflexivity.
Qed.

Section CommandLine.
Variable cpu_count : Z.
Variable now : string.
Variable create_tables : string -> option py_exn.
Variable fs : FileSystem.
Variable await_future : string -> ParserConfig -> result (list Measurement.t).
Variable as_completed : list (result (list Measurement.t)) -> list (result (list Measurement.t)).

Lemma report_error_keeps_work (verbose : bool) (e : py_exn) (w : World) :
  w_submitted (report_error verbose e w) = w_submitted w
  /\ w_sink (report_error verbose e w) = w_sink w.
Proof. unfold report_error. destruct (is_PMError e), verbose; split; reflexivity. Qed.


End CommandLine.

(** [main] passes the output file to the factory under the keyword
    [filename], which the SQLite handler does not have: with the output
    type [sqlite] (in any letter case) the command exits with status 1
    before any file is looked at; nothing is submitted, no handler is
    called and no database is created. *)
Theorem command_line_cannot_write_sqlite (cpu_count : Z) (now : string)
    (create_tables : string -> option py_exn) (args : Args) (fs : FileSystem)
    (await_future : string -> ParserConfig -> result (list Measurement.t))
    (as_completed : list (result (list Measurement.t)) -> list (result (list Measurement.t)))
    (w : World) :
  str_lower (args_output_type args) = "sqlite" ->
  exists w',
    main cpu_count now create_tables args fs await_future as_completed w = (1, w', [])
    /\ w_submitted w' = w_submitted w
    /\ w_sink w' = w_sink w
    /\ exists message,
         w_log w'
         = w_log w ++ ("Unexpected error: " +:+ message)
                      :: (if args_verbose args then ["Detailed error information:"]
                          else []).
Proof.
  intros Hs. unfold main, create. rewrite Hs. cbn [String.eqb bind_keyword bind].
  change (String.eqb "sqlite" "excel") with false.
  change (String.eqb "sqlite" "sqlite") with true.
  change (String.eqb "filename" "db_file") with false. cbv iota.
  eexists. split; [reflexivity|].
  destruct (report_error_keeps_work (args_verbose args)
              (TypeError
                 ("SQLiteOutputHandler" +:+ ".__init__() got an unexpected keyword argument '"
                  +:+ "filename" +:+ "'")) w) as [Hsub Hsink].
  split; [exact Hsub|]. split; [exact Hsink|].
  eexists. unfold report_error. cbn [is_PMError exn_str].
  destruct (args_verbose args); cbn [log w_log]; [|reflexivity].
  rewrite <- app_assoc. reflexivity.
Qed.

Lemma command_line_cannot_write_sqlite_witness :
  exists w',
    main 4 "20240101_120000" (fun _ => None)
      (sample_args (Some "scenario.xml") None "SQLite" (Some "out.db") None)
      sample_fs (run_process_file (PMParser_init (sample_config None None None None [])) sample_fs)
      (fun futures => futures) empty_world
    = (1, w', [])
    /\ w_submitted w' = w_submitted empty_world
    /\ w_sink w' = w_sink empty_world
    /\ exists message,
         w_log w'
         = w_log empty_world
           ++ ("Unexpected error: " +:+ message)
              :: (if args_verbose
                       (sample_args (Some "scenario.xml") None "SQLite" (Some "out.db") None)
                  then ["Detailed error information:"]
                  else []).
Proof.
  apply (command_line_cannot_write_sqlite 4 "20240101_120000" (fun _ => None)
           (sample_args (Some "scenario.xml") None "SQLite" (Some "out.db") None)
           sample_fs
           (run_process_file (PMParser_init (sample_config None None None None []))
              sample_fs)
           (fun futures => futures) empty_world).
  reflexivity.
Defined.



(** ** Two more facts on runs *)



